(** * SceneManager: texture registry, material list and shader glue

    A shallow embedding of [Source/SceneManager.cpp]:
    the fixed table [m_textureIDs] with its fill counter
    [m_loadedTextures], the vector [m_objectMaterials], the tag lookups,
    and the methods that push uniforms through [m_pShaderManager].

    Calls that leave the class (stb_image, OpenGL, the shader manager,
    [std::cout]) are recorded, in the order issued, in a trace of events.
    A subscript outside the bounds of [m_textureIDs] and a call through a
    null pointer have no defined behaviour in C++; the embedding stops
    there with a [Fault]. *)

From Stdlib Require Import ZArith String List Bool Lia Reals Lra.
From stdpp Require Import base list.
Import ListNotations.

Local Open Scope string_scope.
Local Open Scope Z_scope.

(** ** Arithmetic of the C++ type [float]

    The scalar type of GLM's [vec3], [vec4] and [mat4] is [float].  Its
    operations are kept behind an interface: the registry never computes
    with floats, and the transform code needs only the operations below. *)

Class FloatArith : Type := {
  float : Type;
  f0 : float;                       (* 0.0f *)
  f1 : float;                       (* 1.0f *)
  fadd : float -> float -> float;
  fsub : float -> float -> float;
  fmul : float -> float -> float;
  fdiv : float -> float -> float;
  fsqrt : float -> float;
  fcos : float -> float;
  fsin : float -> float;
  deg2rad : float                   (* 0.01745329251994329576923690768489 *)
}.


(** The real numbers as an instance: [float] arithmetic without
    rounding. *)
Definition R_arith : FloatArith := {|
  float := R;
  f0 := 0%R;
  f1 := 1%R;
  fadd := Rplus;
  fsub := Rminus;
  fmul := Rmult;
  fdiv := Rdiv;
  fsqrt := sqrt;
  fcos := cos;
  fsin := sin;
  deg2rad := (PI / 180)%R
|}.

(** ** Integer types

    [GLuint] is an unsigned 32-bit integer and [int] a signed one; both
    are carried as [Z] with the conversions written out. *)

Definition GLuint_max : Z := 4294967295.

(** Conversion to [GLuint] (reduction modulo 2^32). *)
Definition to_GLuint (z : Z) : Z := z mod 4294967296.

(** Conversion of a [GLuint] to [int], as in [int textureID = slot.ID]:
    modular (C++20; what compilers did before it too), so values from
    2^31 on come out negative and 0xFFFFFFFF comes out as -1. *)
Definition GLuint_to_int (u : Z) : Z :=
  if u mod 4294967296 <? 2147483648 then u mod 4294967296
  else u mod 4294967296 - 4294967296.

(** A pointer; [NULL] is the null pointer. *)
Definition pointer := Z.
Definition NULL : pointer := 0.

(** ** Texture table entries

    [TEXTURE_INFO] pairs a tag with the OpenGL texture name.  The field
    [ID] is a [GLuint]: [DestroyGLTextures] passes its address to
    [glGenTextures]. *)
Module Texture.
Record TEXTURE_INFO := mk { tag : string; ID : Z }.
End Texture.
Abbreviation TEXTURE_INFO := Texture.TEXTURE_INFO.

(** Modelled from the spec: the declared length of the array
    [m_textureIDs], which SceneManager.h (not among the sources) fixes.
    The spec gives a capacity of 16 slots; the constructor initialises
    exactly the indices 0..15. *)
Definition texture_capacity : nat := 16.

(** What a run can stop with instead of a value. *)
Inductive fault :=
| OutOfBounds (index : Z)      (* subscript outside m_textureIDs / the vector *)
| NullDereference              (* call through a null m_pShaderManager *)
| LoopBudget.                  (* the iteration bound of a loop was too small *)

Inductive result (A : Type) :=
| Done (a : A)
| Fault (e : fault).
Arguments Done {A} a.
Arguments Fault {A} e.

Definition result_bind {A B} (r : result A) (k : A -> result B) : result B :=
  match r with
  | Done a => k a
  | Fault e => Fault e
  end.

(** ** Constants of the external interfaces *)

Inductive GLenum :=
| GL_TEXTURE_2D | GL_TEXTURE_WRAP_S | GL_TEXTURE_WRAP_T
| GL_TEXTURE_MIN_FILTER | GL_TEXTURE_MAG_FILTER
| GL_REPEAT | GL_LINEAR | GL_RGB | GL_RGBA | GL_RGB8 | GL_RGBA8
| GL_UNSIGNED_BYTE.

(** What [stbi_load] hands back for a readable image. *)
Record stbi_image := mk_image {
  width : Z;
  height : Z;
  colorChannels : Z;
  pixels : list Z
}.

(** The lines written to [std::cout]. *)
Inductive console_line :=
| Successfully_loaded_image (filename : string) (w h channels : Z)
| Not_implemented_channels (channels : Z)
| Could_not_load_image (filename : string).

(** Names of the uniforms addressed by the class. *)
Definition g_ModelName : string := "model".
Definition g_ColorValueName : string := "objectColor".
Definition g_TextureValueName : string := "objectTexture".
Definition g_UseTextureName : string := "bUseTexture".
Definition g_UseLightingName : string := "bUseLighting".

Section Scene.

Context {F : FloatArith}.

(** ** GLM vectors and matrices

    GLM is an external library; the functions [SetTransformations] calls
    are written out after its scalar (non-SIMD) definitions, with the
    order of the additions and multiplications kept.  [mat4] is column
    major, as in GLM: [col0 m] is [m[0]]. *)

Record vec2 := mk_vec2 { v2x : float; v2y : float }.
Record vec3 := mk_vec3 { v3x : float; v3y : float; v3z : float }.
Record vec4 := mk_vec4 { v4x : float; v4y : float; v4z : float; v4w : float }.
Record mat4 := mk_mat4 { col0 : vec4; col1 : vec4; col2 : vec4; col3 : vec4 }.

Definition vec4_scale (v : vec4) (k : float) : vec4 :=
  mk_vec4 (fmul (v4x v) k) (fmul (v4y v) k) (fmul (v4z v) k) (fmul (v4w v) k).

Definition vec4_add (a b : vec4) : vec4 :=
  mk_vec4 (fadd (v4x a) (v4x b)) (fadd (v4y a) (v4y b))
          (fadd (v4z a) (v4z b)) (fadd (v4w a) (v4w b)).

Definition vec3_scale (v : vec3) (k : float) : vec3 :=
  mk_vec3 (fmul (v3x v) k) (fmul (v3y v) k) (fmul (v3z v) k).

(** [k * v], scalar on the left. *)
Definition scalar_vec3 (k : float) (v : vec3) : vec3 :=
  mk_vec3 (fmul k (v3x v)) (fmul k (v3y v)) (fmul k (v3z v)).

(** [glm::mat4(1.0f)] *)
Definition mat4_identity : mat4 :=
  mk_mat4 (mk_vec4 f1 f0 f0 f0) (mk_vec4 f0 f1 f0 f0)
          (mk_vec4 f0 f0 f1 f0) (mk_vec4 f0 f0 f0 f1).

(** [operator*] on [mat4]: column [c] of the product is
    [a[0]*b[c][0] + a[1]*b[c][1] + a[2]*b[c][2] + a[3]*b[c][3]]. *)
Definition mat4_mul_col (a : mat4) (bc : vec4) : vec4 :=
  vec4_add
    (vec4_add
       (vec4_add (vec4_scale (col0 a) (v4x bc)) (vec4_scale (col1 a) (v4y bc)))
       (vec4_scale (col2 a) (v4z bc)))
    (vec4_scale (col3 a) (v4w bc)).

Definition mat4_mul (a b : mat4) : mat4 :=
  mk_mat4 (mat4_mul_col a (col0 b)) (mat4_mul_col a (col1 b))
          (mat4_mul_col a (col2 b)) (mat4_mul_col a (col3 b)).

(** [glm::radians] *)
Definition glm_radians (degrees : float) : float := fmul degrees deg2rad.

Definition glm_dot (a b : vec3) : float :=
  fadd (fadd (fmul (v3x a) (v3x b)) (fmul (v3y a) (v3y b))) (fmul (v3z a) (v3z b)).

Definition glm_inversesqrt (x : float) : float := fdiv f1 (fsqrt x).

Definition glm_normalize (v : vec3) : vec3 :=
  vec3_scale v (glm_inversesqrt (glm_dot v v)).

(** [glm::translate(m, v)]: [m] with [m[3]] replaced by
    [m[0]*v[0] + m[1]*v[1] + m[2]*v[2] + m[3]]. *)
Definition glm_translate_m (m : mat4) (v : vec3) : mat4 :=
  mk_mat4 (col0 m) (col1 m) (col2 m)
    (vec4_add
       (vec4_add
          (vec4_add (vec4_scale (col0 m) (v3x v)) (vec4_scale (col1 m) (v3y v)))
          (vec4_scale (col2 m) (v3z v)))
       (col3 m)).

(** [glm::scale(m, v)] *)
Definition glm_scale_m (m : mat4) (v : vec3) : mat4 :=
  mk_mat4 (vec4_scale (col0 m) (v3x v)) (vec4_scale (col1 m) (v3y v))
          (vec4_scale (col2 m) (v3z v)) (col3 m).

(** [glm::rotate(m, angle, v)], the axis-angle formula of GLM. *)
Definition glm_rotate_m (m : mat4) (angle : float) (v : vec3) : mat4 :=
  let c := fcos angle in
  let s := fsin angle in
  let axis := glm_normalize v in
  let temp := scalar_vec3 (fsub f1 c) axis in
  let r00 := fadd c (fmul (v3x temp) (v3x axis)) in
  let r01 := fadd (fmul (v3x temp) (v3y axis)) (fmul s (v3z axis)) in
  let r02 := fsub (fmul (v3x temp) (v3z axis)) (fmul s (v3y axis)) in
  let r10 := fsub (fmul (v3y temp) (v3x axis)) (fmul s (v3z axis)) in
  let r11 := fadd c (fmul (v3y temp) (v3y axis)) in
  let r12 := fadd (fmul (v3y temp) (v3z axis)) (fmul s (v3x axis)) in
  let r20 := fadd (fmul (v3z temp) (v3x axis)) (fmul s (v3y axis)) in
  let r21 := fsub (fmul (v3z temp) (v3y axis)) (fmul s (v3x axis)) in
  let r22 := fadd c (fmul (v3z temp) (v3z axis)) in
  let lin (a b d : float) : vec4 :=
    vec4_add (vec4_add (vec4_scale (col0 m) a) (vec4_scale (col1 m) b))
             (vec4_scale (col2 m) d) in
  mk_mat4 (lin r00 r01 r02) (lin r10 r11 r12) (lin r20 r21 r22) (col3 m).

(** The one-argument forms of [<glm/gtx/transform.hpp>] start from the
    identity matrix. *)
Definition glm_translate (v : vec3) : mat4 := glm_translate_m mat4_identity v.
Definition glm_scale (v : vec3) : mat4 := glm_scale_m mat4_identity v.
Definition glm_rotate (angle : float) (v : vec3) : mat4 :=
  glm_rotate_m mat4_identity angle v.

(** ** Materials *)

Record OBJECT_MATERIAL := mk_material {
  ambientColor : vec3;
  ambientStrength : float;
  diffuseColor : vec3;
  specularColor : vec3;
  shininess : float;
  tag : string
}.

(** ** Calls that leave the class *)

Inductive event :=
(* stb_image *)
| stbi_set_flip_vertically_on_load (flag : bool)
| stbi_load (filename : string)
| stbi_image_free
(* std::cout *)
| cout (line : console_line)
(* GPU texture backend *)
| glGenTextures (name : Z)
| glDeleteTextures (name : Z)
| glBindTexture (target : GLenum) (name : Z)
| glTexParameteri (target pname param : GLenum)
| glTexImage2D (target internalformat : GLenum) (w h : Z) (format type : GLenum)
| glGenerateMipmap (target : GLenum)
| glActiveTexture (unit : Z)
(* ShaderManager, with the receiving object *)
| setMat4Value (sm : pointer) (name : string) (m : mat4)
| setIntValue (sm : pointer) (name : string) (v : Z)
| setSampler2DValue (sm : pointer) (name : string) (v : Z)
| setFloatValue (sm : pointer) (name : string) (v : float)
| setVec2Value (sm : pointer) (name : string) (v : vec2)
| setVec3Value (sm : pointer) (name : string) (v : vec3)
| setVec4Value (sm : pointer) (name : string) (v : vec4).

(** ** The object and its surroundings *)

Record SceneManager := mk_scene {
  m_pShaderManager : pointer;
  m_textureIDs : list TEXTURE_INFO;      (* the fixed array *)
  m_loadedTextures : Z;                  (* int *)
  m_objectMaterials : list OBJECT_MATERIAL
}.

(** [this] is the object; [trace] the external calls so far, oldest
    first; [disk] what the image decoder finds under a file name;
    [gl_names] the name the n-th [glGenTextures] stores and
    [gl_generated] the number of such calls so far. *)
Record World := mk_world {
  this : SceneManager;
  trace : list event;
  disk : string -> option stbi_image;
  gl_names : nat -> Z;
  gl_generated : nat
}.

Definition M (A : Type) : Type := World -> result (A * World).

Definition ret {A} (a : A) : M A := fun w => Done (a, w).

Definition bind {A B} (m : M A) (k : A -> M B) : M B :=
  fun w => match m w with
           | Done (a, w') => k a w'
           | Fault e => Fault e
           end.

Definition raise {A} (e : fault) : M A := fun _ => Fault e.

Notation "'let*' x ':=' m 'in' k" := (bind m (fun x => k))
  (at level 10, x name, m at level 200, k at level 200).

Definition lift {A} (r : result A) : M A :=
  fun w => match r with
           | Done a => Done (a, w)
           | Fault e => Fault e
           end.

Definition get_this : M SceneManager := fun w => Done (this w, w).

Definition set_this (o : SceneManager) : M unit :=
  fun w => Done (tt, mk_world o (trace w) (disk w) (gl_names w) (gl_generated w)).

(** Record one external call. *)
Definition emit (e : event) : M unit :=
  fun w => Done (tt, mk_world (this w) (trace w ++ [e]) (disk w)
                              (gl_names w) (gl_generated w)).

(** [stbi_load(filename, &width, &height, &colorChannels, 0)]; [None] is
    the null pointer it returns for a missing or undecodable file. *)
Definition call_stbi_load (filename : string) : M (option stbi_image) :=
  let* _ := emit (stbi_load filename) in
  fun w => Done (disk w filename, w).

(** [glGenTextures(1, &name)]: the backend stores a texture name. *)
Definition call_glGenTextures : M Z :=
  fun w =>
    let name := to_GLuint (gl_names w (gl_generated w)) in
    Done (name, mk_world (this w) (trace w ++ [glGenTextures name]) (disk w)
                         (gl_names w) (S (gl_generated w))).

(** *** Field updates *)

Definition with_pShaderManager (p : pointer) (o : SceneManager) : SceneManager :=
  mk_scene p (m_textureIDs o) (m_loadedTextures o) (m_objectMaterials o).
Definition with_textureIDs (t : list TEXTURE_INFO) (o : SceneManager) : SceneManager :=
  mk_scene (m_pShaderManager o) t (m_loadedTextures o) (m_objectMaterials o).
Definition with_loadedTextures (n : Z) (o : SceneManager) : SceneManager :=
  mk_scene (m_pShaderManager o) (m_textureIDs o) n (m_objectMaterials o).
Definition with_objectMaterials (l : list OBJECT_MATERIAL) (o : SceneManager)
  : SceneManager :=
  mk_scene (m_pShaderManager o) (m_textureIDs o) (m_loadedTextures o) l.

(** *** The array [m_textureIDs]

    [m_textureIDs[i]] is defined for the indices of the array only. *)
Definition slot_at (o : SceneManager) (i : Z) : result TEXTURE_INFO :=
  if i <? 0 then Fault (OutOfBounds i)
  else match m_textureIDs o !! Z.to_nat i with
       | Some slot => Done slot
       | None => Fault (OutOfBounds i)
       end.

(** [m_textureIDs[i] = f(m_textureIDs[i])] *)
Definition slot_update (i : Z) (f : TEXTURE_INFO -> TEXTURE_INFO) : M unit :=
  let* o := get_this in
  let* slot := lift (slot_at o i) in
  set_this (with_textureIDs (<[Z.to_nat i := f slot]> (m_textureIDs o)) o).

Definition set_ID (v : Z) (slot : TEXTURE_INFO) : TEXTURE_INFO :=
  Texture.mk (Texture.tag slot) v.
Definition set_tag (t : string) (slot : TEXTURE_INFO) : TEXTURE_INFO :=
  Texture.mk t (Texture.ID slot).

(** [for (int i = start; cond(i); i++) body(i)], with a bound on the
    number of iterations. *)
Fixpoint for_loop (budget : nat) (cond : Z -> M bool) (body : Z -> M unit)
  (i : Z) : M unit :=
  let* go := cond i in
  if go then
    match budget with
    | O => raise LoopBudget
    | S budget' => let* _ := body i in for_loop budget' cond body (i + 1)
    end
  else ret tt.

(** ** Constructor and destructor *)

(** The storage of a [SceneManager] before its constructor body runs:
    the array holds default-constructed entries and the vector is empty.
    The scalar members are indeterminate; the constructor overwrites
    them before any use.  ([m_basicMeshes] belongs to the mesh library
    and is left out.) *)
Definition raw_object : SceneManager :=
  mk_scene NULL (replicate texture_capacity (Texture.mk EmptyString 0)) 0 [].

(** The constructor [SceneManager::SceneManager], given the shader
    manager pointer.  Its statement [m_basicMeshes = new ShapeMeshes()]
    is not modelled: the class [ShapeMeshes] belongs to the mesh library,
    outside these sources, and the registry never reads the member.  So
    the trace of a constructor run says nothing about what that
    allocation does. *)
Definition SceneManager_ctor (pShaderManager : pointer) : M unit :=
  let* o := get_this in
  let* _ := set_this (with_pShaderManager pShaderManager o) in
  let* _ := for_loop 16 (fun i => ret (i <? 16))
              (fun i =>
                 let* _ := slot_update i (set_tag "/0") in
                 slot_update i (set_ID (to_GLuint (-1))))
              0 in
  let* o := get_this in
  set_this (with_loadedTextures 0 o).

(** ** Texture registry *)

(** [SceneManager::CreateGLTexture] *)
Definition CreateGLTexture (filename : string) (tag : string) : M bool :=
  let* _ := emit (stbi_set_flip_vertically_on_load true) in
  let* image := call_stbi_load filename in
  match image with
  | Some img =>
    let* _ := emit (cout (Successfully_loaded_image filename (width img) (height img)
                      (colorChannels img))) in
    let* textureID := call_glGenTextures in
    let* _ := emit (glBindTexture GL_TEXTURE_2D textureID) in
    let* _ := emit (glTexParameteri GL_TEXTURE_2D GL_TEXTURE_WRAP_S GL_REPEAT) in
    let* _ := emit (glTexParameteri GL_TEXTURE_2D GL_TEXTURE_WRAP_T GL_REPEAT) in
    let* _ := emit (glTexParameteri GL_TEXTURE_2D GL_TEXTURE_MIN_FILTER GL_LINEAR) in
    let* _ := emit (glTexParameteri GL_TEXTURE_2D GL_TEXTURE_MAG_FILTER GL_LINEAR) in
    let* uploaded :=
      if colorChannels img =? 3 then
        let* _ := emit (glTexImage2D GL_TEXTURE_2D GL_RGB8 (width img) (height img)
                    GL_RGB GL_UNSIGNED_BYTE) in ret true
      else if colorChannels img =? 4 then
        let* _ := emit (glTexImage2D GL_TEXTURE_2D GL_RGBA8 (width img) (height img)
                    GL_RGBA GL_UNSIGNED_BYTE) in ret true
      else
        let* _ := emit (cout (Not_implemented_channels (colorChannels img))) in
        ret false in
    if uploaded then
      let* _ := emit (glGenerateMipmap GL_TEXTURE_2D) in
      let* _ := emit stbi_image_free in
      let* _ := emit (glBindTexture GL_TEXTURE_2D 0) in
      let* o := get_this in
      let* _ := slot_update (m_loadedTextures o) (set_ID textureID) in
      let* _ := slot_update (m_loadedTextures o) (set_tag tag) in
      let* o := get_this in
      let* _ := set_this (with_loadedTextures (m_loadedTextures o + 1) o) in
      ret true
    else ret false                    (* the [return false] of the else branch *)
  | None =>
    let* _ := emit (cout (Could_not_load_image filename)) in
    ret false
  end.

(** The loop test [i < m_loadedTextures], read from the object each time. *)
Definition below_loadedTextures (i : Z) : M bool :=
  let* o := get_this in ret (i <? m_loadedTextures o).

(** The body of the loop of [BindGLTextures]. *)
Definition BindGLTextures_body (i : Z) : M unit :=
  let* _ := emit (glActiveTexture i) in     (* GL_TEXTURE0 + i *)
  let* o := get_this in
  let* slot := lift (slot_at o i) in
  emit (glBindTexture GL_TEXTURE_2D (Texture.ID slot)).

(** [SceneManager::BindGLTextures] *)
Definition BindGLTextures : M unit :=
  let* o := get_this in
  for_loop (Z.to_nat (m_loadedTextures o)) below_loadedTextures
    BindGLTextures_body 0.

(** The body of the loop of [DestroyGLTextures]:
    [glGenTextures(1, &m_textureIDs[i].ID)]. *)
Definition DestroyGLTextures_body (i : Z) : M unit :=
  let* o := get_this in
  let* slot := lift (slot_at o i) in
  let* name := call_glGenTextures in
  slot_update i (set_ID name).

(** [SceneManager::DestroyGLTextures] *)
Definition DestroyGLTextures : M unit :=
  let* o := get_this in
  for_loop (Z.to_nat (m_loadedTextures o)) below_loadedTextures
    DestroyGLTextures_body 0.

(** [SceneManager::~SceneManager] *)
Definition SceneManager_dtor : M unit :=
  let* o := get_this in
  let* _ := set_this (with_pShaderManager NULL o) in
  DestroyGLTextures.

(** *** Tag lookups

    The three lookups are [while ((index < n) && (bFound == false))]
    loops; [std::string::compare] returns 0 exactly on equal strings. *)

Fixpoint FindTextureID_while (budget : nat) (o : SceneManager) (tag : string)
  (textureID index : Z) (bFound : bool) : result Z :=
  if (index <? m_loadedTextures o) && eqb bFound false then
    match budget with
    | O => Fault LoopBudget
    | S budget' =>
      result_bind (slot_at o index) (fun slot =>
        if String.eqb (Texture.tag slot) tag
        then FindTextureID_while budget' o tag
               (GLuint_to_int (Texture.ID slot)) index true
        else FindTextureID_while budget' o tag textureID (index + 1) bFound)
    end
  else Done textureID.

(** [SceneManager::FindTextureID]; the [GLuint] in the slot is converted
    to the [int] that is returned. *)
Definition FindTextureID (tag : string) (o : SceneManager) : result Z :=
  FindTextureID_while (Z.to_nat (m_loadedTextures o)) o tag (-1) 0 false.

Fixpoint FindTextureSlot_while (budget : nat) (o : SceneManager) (tag : string)
  (textureSlot index : Z) (bFound : bool) : result Z :=
  if (index <? m_loadedTextures o) && eqb bFound false then
    match budget with
    | O => Fault LoopBudget
    | S budget' =>
      result_bind (slot_at o index) (fun slot =>
        if String.eqb (Texture.tag slot) tag
        then FindTextureSlot_while budget' o tag index index true
        else FindTextureSlot_while budget' o tag textureSlot (index + 1) bFound)
    end
  else Done textureSlot.

(** [SceneManager::FindTextureSlot] *)
Definition FindTextureSlot (tag : string) (o : SceneManager) : result Z :=
  FindTextureSlot_while (Z.to_nat (m_loadedTextures o)) o tag (-1) 0 false.

(** ** Materials *)

(** [m_objectMaterials.push_back(material)] *)
Definition push_back_material (material : OBJECT_MATERIAL) : M unit :=
  let* o := get_this in
  set_this (with_objectMaterials (m_objectMaterials o ++ [material]) o).

(** [m_objectMaterials[index]] under the loop test [index < size()]. *)
Definition material_at (o : SceneManager) (i : Z) : result OBJECT_MATERIAL :=
  if i <? 0 then Fault (OutOfBounds i)
  else match m_objectMaterials o !! Z.to_nat i with
       | Some m => Done m
       | None => Fault (OutOfBounds i)
       end.

(** The five assignments of the match branch: every field of the entry
    is copied into the caller's record except [tag]. *)
Definition assign_fields (entry material : OBJECT_MATERIAL) : OBJECT_MATERIAL :=
  mk_material (ambientColor entry) (ambientStrength entry) (diffuseColor entry)
              (specularColor entry) (shininess entry) (tag material).

Fixpoint FindMaterial_while (budget : nat) (o : SceneManager) (t : string)
  (material : OBJECT_MATERIAL) (index : Z) (bFound : bool)
  : result OBJECT_MATERIAL :=
  if (index <? Z.of_nat (length (m_objectMaterials o))) && eqb bFound false then
    match budget with
    | O => Fault LoopBudget
    | S budget' =>
      result_bind (material_at o index) (fun entry =>
        if String.eqb (tag entry) t
        then FindMaterial_while budget' o t (assign_fields entry material) index true
        else FindMaterial_while budget' o t material (index + 1) bFound)
    end
  else Done material.

(** [SceneManager::FindMaterial]: the returned pair is the [bool] result
    and the contents of the reference parameter [material] on return. *)
Definition FindMaterial (t : string) (material : OBJECT_MATERIAL)
  (o : SceneManager) : result (bool * OBJECT_MATERIAL) :=
  if Z.of_nat (length (m_objectMaterials o)) =? 0 then Done (false, material)
  else
    result_bind
      (FindMaterial_while (length (m_objectMaterials o)) o t material 0 false)
      (fun material' => Done (true, material')).

(** ** Shader glue *)

(** The local [modelView] of [SetTransformations]; the product is
    evaluated left to right. *)
Definition modelView (scaleXYZ : vec3)
  (XrotationDegrees YrotationDegrees ZrotationDegrees : float)
  (positionXYZ : vec3) : mat4 :=
  let scale := glm_scale scaleXYZ in
  let rotationX := glm_rotate (glm_radians XrotationDegrees) (mk_vec3 f1 f0 f0) in
  let rotationY := glm_rotate (glm_radians YrotationDegrees) (mk_vec3 f0 f1 f0) in
  let rotationZ := glm_rotate (glm_radians ZrotationDegrees) (mk_vec3 f0 f0 f1) in
  let translation := glm_translate positionXYZ in
  mat4_mul (mat4_mul (mat4_mul (mat4_mul translation rotationX) rotationY) rotationZ)
           scale.

(** [SceneManager::SetTransformations] *)
Definition SetTransformations (scaleXYZ : vec3)
  (XrotationDegrees YrotationDegrees ZrotationDegrees : float)
  (positionXYZ : vec3) : M unit :=
  let mv := modelView scaleXYZ XrotationDegrees YrotationDegrees ZrotationDegrees
              positionXYZ in
  let* o := get_this in
  if negb (m_pShaderManager o =? NULL) then
    emit (setMat4Value (m_pShaderManager o) g_ModelName mv)
  else ret tt.

(** [SceneManager::SetShaderColor]; [false] is passed as the [int] 0. *)
Definition SetShaderColor (redColorValue greenColorValue blueColorValue
  alphaValue : float) : M unit :=
  let currentColor := mk_vec4 redColorValue greenColorValue blueColorValue
                        alphaValue in
  let* o := get_this in
  if negb (m_pShaderManager o =? NULL) then
    let* _ := emit (setIntValue (m_pShaderManager o) g_UseTextureName 0) in
    emit (setVec4Value (m_pShaderManager o) g_ColorValueName currentColor)
  else ret tt.

(** [SceneManager::SetShaderTexture]; [true] is passed as the [int] 1. *)
Definition SetShaderTexture (textureTag : string) : M unit :=
  let* o := get_this in
  if negb (m_pShaderManager o =? NULL) then
    let* _ := emit (setIntValue (m_pShaderManager o) g_UseTextureName 1) in
    let* textureID := lift (FindTextureSlot textureTag o) in
    emit (setSampler2DValue (m_pShaderManager o) g_TextureValueName textureID)
  else ret tt.

(** [SceneManager::SetTextureUVScale] *)
Definition SetTextureUVScale (u v : float) : M unit :=
  let* o := get_this in
  if negb (m_pShaderManager o =? NULL) then
    emit (setVec2Value (m_pShaderManager o) "UVscale" (mk_vec2 u v))
  else ret tt.

(** A member call through [m_pShaderManager] without a null test. *)
Definition through_pShaderManager (call : pointer -> event) : M unit :=
  let* o := get_this in
  if m_pShaderManager o =? NULL then raise NullDereference
  else emit (call (m_pShaderManager o)).

(** [SceneManager::SetShaderMaterial]; [material] stands for the contents
    of the local record before [FindMaterial] fills it. *)
Definition SetShaderMaterial (materialTag : string) (material : OBJECT_MATERIAL)
  : M unit :=
  let* o := get_this in
  if Z.of_nat (length (m_objectMaterials o)) >? 0 then
    let* found := lift (FindMaterial materialTag material o) in
    let (bReturn, material) := found in
    if eqb bReturn true then
      let* _ := through_pShaderManager (fun p =>
                  setVec3Value p "material.ambientColor" (ambientColor material)) in
      let* _ := through_pShaderManager (fun p =>
                  setFloatValue p "material.ambientStrength" (ambientStrength material)) in
      let* _ := through_pShaderManager (fun p =>
                  setVec3Value p "material.diffuseColor" (diffuseColor material)) in
      let* _ := through_pShaderManager (fun p =>
                  setVec3Value p "material.specularColor" (specularColor material)) in
      through_pShaderManager (fun p =>
                  setFloatValue p "material.shininess" (shininess material))
    else ret tt
  else ret tt.

(** ** Scene preparation *)

(** The file names and tags of [LoadSceneTextures], in call order. *)
Definition scene_textures : list (string * string) :=
  [ ("textures/ground.jpg", "ground");
    ("textures/fabric02.jpg", "fabric02");
    ("textures/Onyx1.jpg", "Onyx1");
    ("textures/wood.jpg", "wood");
    ("textures/keyboard.jpg", "keyboard");
    ("textures/laptop.jpg", "laptop");
    ("textures/matrix.jpg", "matrix");
    ("textures/mousepad.jpg", "mousepad");
    ("textures/blackmetal.jpg", "black_metal");
    ("textures/stainless_end.jpg", "stainless");
    ("textures/mouse1.jpg", "mouse1");
    ("textures/glass.jpg", "glass");
    ("textures/wax.png", "wax");
    ("textures/flame.jpg", "flame");
    ("textures/cap2.jpg", "cap2");
    ("textures/pepper.jpg", "pepper");
    ("textures/salt1.jpg", "salt1") ].

(** A straight-line sequence of [bReturn = CreateGLTexture(file, tag)]
    statements; the result of each call is overwritten by the next. *)
Fixpoint CreateGLTexture_each (calls : list (string * string)) : M unit :=
  match calls with
  | [] => ret tt
  | (filename, tag) :: rest =>
    let* bReturn := CreateGLTexture filename tag in
    CreateGLTexture_each rest
  end.

(** [SceneManager::LoadSceneTextures] *)
Definition LoadSceneTextures : M unit :=
  let* _ := CreateGLTexture_each scene_textures in
  BindGLTextures.

(** ** Runs used to state the properties *)

Definition set_object (o : SceneManager) (w : World) : World :=
  mk_world o (trace w) (disk w) (gl_names w) (gl_generated w).

(** [new SceneManager(pShaderManager)]: the constructor on fresh storage. *)
Definition construct (pShaderManager : pointer) : M unit :=
  fun w => SceneManager_ctor pShaderManager (set_object raw_object w).

(** A sequence of [CreateGLTexture] calls, returning how many of them
    returned [true]. *)
Fixpoint register_counting (calls : list (string * string)) : M Z :=
  match calls with
  | [] => ret 0
  | (filename, tag) :: rest =>
    let* bReturn := CreateGLTexture filename tag in
    let* n := register_counting rest in
    ret ((if bReturn then 1 else 0) + n)
  end.

(** A sequence of [push_back] calls on the material list. *)
Fixpoint push_back_each (materials : list OBJECT_MATERIAL) : M unit :=
  match materials with
  | [] => ret tt
  | m :: rest => let* _ := push_back_material m in push_back_each rest
  end.

End Scene.

(** * Vocabulary of the properties *)

Section Vocabulary.

Context {F : FloatArith}.

(** The fill counter stays within the array. *)
Definition registry_ok (o : SceneManager) : Prop :=
  0 <= m_loadedTextures o <= Z.of_nat (length (m_textureIDs o)).

(** The same as a test. *)
Definition registry_okb (o : SceneManager) : bool :=
  (0 <=? m_loadedTextures o)
  && (m_loadedTextures o <=? Z.of_nat (length (m_textureIDs o))).

(** No filled slot from [index] on carries [tag]. *)
Definition no_tag_from (o : SceneManager) (tag : string) (index : Z) : Prop :=
  forall j slot, index <= j < m_loadedTextures o ->
    m_textureIDs o !! Z.to_nat j = Some slot -> Texture.tag slot <> tag.

(** The filled prefix of the table. *)
Definition filled_slots (o : SceneManager) : list TEXTURE_INFO :=
  take (Z.to_nat (m_loadedTextures o)) (m_textureIDs o).

(** No filled slot carries [tag], as a test. *)
Definition no_tagb (o : SceneManager) (tag : string) : bool :=
  forallb (fun slot => negb (String.eqb (Texture.tag slot) tag)) (filled_slots o).

(** Slot [k] is the first filled slot from [index] on that carries [tag]. *)
Definition first_tag_from (o : SceneManager) (tag : string) (index k : Z)
  (slot : TEXTURE_INFO) : Prop :=
  index <= k < m_loadedTextures o /\
  m_textureIDs o !! Z.to_nat k = Some slot /\
  Texture.tag slot = tag /\
  forall j s, index <= j < k ->
    m_textureIDs o !! Z.to_nat j = Some s -> Texture.tag s <> tag.

(** The name the next [glGenTextures] call stores. *)
Definition next_name (w : World) : Z := to_GLuint (gl_names w (gl_generated w)).

(** The external calls of a registration that reaches the table. *)
Definition upload_events (filename : string) (img : stbi_image) (name : Z)
  : list event :=
  [ stbi_set_flip_vertically_on_load true;
    stbi_load filename;
    cout (Successfully_loaded_image filename (width img) (height img)
            (colorChannels img));
    glGenTextures name;
    glBindTexture GL_TEXTURE_2D name;
    glTexParameteri GL_TEXTURE_2D GL_TEXTURE_WRAP_S GL_REPEAT;
    glTexParameteri GL_TEXTURE_2D GL_TEXTURE_WRAP_T GL_REPEAT;
    glTexParameteri GL_TEXTURE_2D GL_TEXTURE_MIN_FILTER GL_LINEAR;
    glTexParameteri GL_TEXTURE_2D GL_TEXTURE_MAG_FILTER GL_LINEAR;
    (if colorChannels img =? 3
     then glTexImage2D GL_TEXTURE_2D GL_RGB8 (width img) (height img)
            GL_RGB GL_UNSIGNED_BYTE
     else glTexImage2D GL_TEXTURE_2D GL_RGBA8 (width img) (height img)
            GL_RGBA GL_UNSIGNED_BYTE);
    glGenerateMipmap GL_TEXTURE_2D;
    stbi_image_free;
    glBindTexture GL_TEXTURE_2D 0 ].

(** The external calls of a registration refused for its channel count. *)
Definition refused_events (filename : string) (img : stbi_image) (name : Z)
  : list event :=
  [ stbi_set_flip_vertically_on_load true;
    stbi_load filename;
    cout (Successfully_loaded_image filename (width img) (height img)
            (colorChannels img));
    glGenTextures name;
    glBindTexture GL_TEXTURE_2D name;
    glTexParameteri GL_TEXTURE_2D GL_TEXTURE_WRAP_S GL_REPEAT;
    glTexParameteri GL_TEXTURE_2D GL_TEXTURE_WRAP_T GL_REPEAT;
    glTexParameteri GL_TEXTURE_2D GL_TEXTURE_MIN_FILTER GL_LINEAR;
    glTexParameteri GL_TEXTURE_2D GL_TEXTURE_MAG_FILTER GL_LINEAR;
    cout (Not_implemented_channels (colorChannels img)) ].

(** The world a run ends in; the starting world when it faults. *)
Definition world_after {A : Type} (m : M A) (w : World) : World :=
  match m w with
  | Done (_, w') => w'
  | Fault _ => w
  end.

End Vocabulary.

(** * Concrete scenes

    Inputs on which the properties are exercised, over the real-number
    instance of [float]. *)

Definition rgb_image : stbi_image := mk_image 512 512 3 [].
Definition rgba_image : stbi_image := mk_image 256 256 4 [].
Definition grey_alpha_image : stbi_image := mk_image 64 64 2 [].

(** Every file of [LoadSceneTextures] decodes ([wax.png] with an alpha
    channel); one more file holds a 2-channel image. *)
Definition example_disk (filename : string) : option stbi_image :=
  if String.eqb filename "textures/grey_alpha.png" then Some grey_alpha_image
  else if String.eqb filename "textures/wax.png" then Some rgba_image
  else if existsb (String.eqb filename) (map fst scene_textures)
       then Some rgb_image
       else None.

(** A backend that hands out the names 1, 2, 3, ... *)
Definition counting_names (n : nat) : Z := Z.of_nat n + 1.

(** A backend that hands out names from the top of the [GLuint] range. *)
Definition descending_names (n : nat) : Z := GLuint_max - Z.of_nat n.

Definition blank_world : World (F := R_arith) :=
  mk_world raw_object [] example_disk counting_names 0.

(** The scene after the constructor and the first [k] registrations of
    [LoadSceneTextures]. *)
Definition scene_with (k : nat) : World (F := R_arith) :=
  world_after
    (bind (construct 1) (fun _ => CreateGLTexture_each (firstn k scene_textures)))
    blank_world.

(** Three registrations that succeed and one of a missing file. *)
Definition four_attempts : list (string * string) :=
  (firstn 3 scene_textures ++ [("textures/missing.jpg", "missing")])%list.

Definition scene_after_attempts : World (F := R_arith) :=
  world_after (bind (construct 1) (fun _ => register_counting four_attempts))
    blank_world.

(** One registration on a backend whose first name is 0xFFFFFFFF. *)
Definition collision_scene : World (F := R_arith) :=
  world_after
    (bind (construct 1) (fun _ => CreateGLTexture "textures/wax.png" "wax"))
    (mk_world raw_object [] example_disk descending_names 0).

(** A scene whose shader manager pointer is null. *)
Definition unshaded_scene : World (F := R_arith) :=
  world_after (construct NULL) blank_world.

Definition grey : vec3 (F := R_arith) := mk_vec3 (F := R_arith) 0%R 0%R 0%R.

Definition material_a_first : OBJECT_MATERIAL (F := R_arith) :=
  mk_material grey 1%R grey grey 3%R "a".
Definition material_b : OBJECT_MATERIAL (F := R_arith) :=
  mk_material grey 1%R grey grey 7%R "b".
Definition material_a_third : OBJECT_MATERIAL (F := R_arith) :=
  mk_material grey 1%R grey grey 40%R "a".
Definition material_out : OBJECT_MATERIAL (F := R_arith) :=
  mk_material grey 0%R grey grey 0%R "local".

(** * Further vocabulary

    Definitions used to state properties of the methods beyond the
    texture table's capacity and the lookups' sentinel. *)

Section MoreVocabulary.

Context {F : FloatArith}.

Notation "'let*' x ':=' m 'in' k" := (bind m (fun x => k))
  (at level 10, x name, m at level 200, k at level 200).

(** The object after [m_textureIDs[m_loadedTextures] = {tag, name}] and
    [m_loadedTextures++]. *)
Definition with_new_texture (tag : string) (name : Z) (o : SceneManager)
  : SceneManager :=
  mk_scene (m_pShaderManager o)
    (<[Z.to_nat (m_loadedTextures o) := Texture.mk tag name]> (m_textureIDs o))
    (m_loadedTextures o + 1)
    (m_objectMaterials o).

(** Whether [stbi_load] finds under [filename] an image that
    [CreateGLTexture] accepts. *)
Definition loadable (w : World) (filename : string) : bool :=
  match disk w filename with
  | Some img => (colorChannels img =? 3) || (colorChannels img =? 4)
  | None => false
  end.

(** How many of the calls name a loadable file. *)
Definition count_loadable (w : World) (calls : list (string * string)) : Z :=
  Z.of_nat (length (filter (fun c => loadable w (fst c)) calls)).

(** The calls [BindGLTextures] issues for the slots [slots], the first of
    which is bound to texture unit [first_unit]. *)
Fixpoint bind_events (first_unit : Z) (slots : list TEXTURE_INFO) : list event :=
  match slots with
  | [] => []
  | slot :: rest =>
    glActiveTexture first_unit
      :: glBindTexture GL_TEXTURE_2D (Texture.ID slot)
      :: bind_events (first_unit + 1) rest
  end.

(** The slots [DestroyGLTextures] leaves behind when, from [slots] on, the
    backend hands out the names [names k], [names (k+1)], ... *)
Fixpoint regenerated (names : nat -> Z) (k : nat) (slots : list TEXTURE_INFO)
  : list TEXTURE_INFO :=
  match slots with
  | [] => []
  | slot :: rest =>
    Texture.mk (Texture.tag slot) (to_GLuint (names k))
      :: regenerated names (S k) rest
  end.

(** The value of the last [setIntValue] on uniform [name] of shader
    manager [sm] in a trace, if there is one. *)
Fixpoint last_int_value (sm : pointer) (name : string) (tr : list event)
  : option Z :=
  match tr with
  | [] => None
  | e :: rest =>
    match last_int_value sm name rest with
    | Some v => Some v
    | None =>
      match e with
      | setIntValue sm' name' v =>
        if (sm' =? sm) && String.eqb name' name then Some v else None
      | _ => None
      end
    end
  end.

(** Whether a material carries the tag [t]. *)
Definition has_tag (t : string) (e : OBJECT_MATERIAL) : bool :=
  String.eqb (tag e) t.

(** The five uniform writes of [SetShaderMaterial] for a record. *)
Definition material_events (sm : pointer) (material : OBJECT_MATERIAL)
  : list event :=
  [ setVec3Value sm "material.ambientColor" (ambientColor material);
    setFloatValue sm "material.ambientStrength" (ambientStrength material);
    setVec3Value sm "material.diffuseColor" (diffuseColor material);
    setVec3Value sm "material.specularColor" (specularColor material);
    setFloatValue sm "material.shininess" (shininess material) ].

(** The world with more calls on its trace. *)
Definition with_events (evs : list event) (w : World) : World :=
  mk_world (this w) (trace w ++ evs) (disk w) (gl_names w) (gl_generated w).

(** *** Sequences of method calls *)

(** The methods that a client may call on a constructed object, with
    their arguments.  ([SetShaderMaterial] carries the contents of its
    local record, see there.) *)
Inductive method_call :=
| call_CreateGLTexture (filename tag : string)
| call_BindGLTextures
| call_DestroyGLTextures
| call_LoadSceneTextures
| call_push_back (material : OBJECT_MATERIAL)
| call_SetTransformations (scaleXYZ : vec3) (xdeg ydeg zdeg : float)
    (positionXYZ : vec3)
| call_SetShaderColor (r g b a : float)
| call_SetShaderTexture (textureTag : string)
| call_SetTextureUVScale (u v : float)
| call_SetShaderMaterial (materialTag : string) (material : OBJECT_MATERIAL).

Definition perform (c : method_call) : M unit :=
  match c with
  | call_CreateGLTexture filename tag =>
    let* bReturn := CreateGLTexture filename tag in ret tt
  | call_BindGLTextures => BindGLTextures
  | call_DestroyGLTextures => DestroyGLTextures
  | call_LoadSceneTextures => LoadSceneTextures
  | call_push_back material => push_back_material material
  | call_SetTransformations s x y z p => SetTransformations s x y z p
  | call_SetShaderColor r g b a => SetShaderColor r g b a
  | call_SetShaderTexture t => SetShaderTexture t
  | call_SetTextureUVScale u v => SetTextureUVScale u v
  | call_SetShaderMaterial t material => SetShaderMaterial t material
  end.

Fixpoint perform_all (cs : list method_call) : M unit :=
  match cs with
  | [] => ret tt
  | c :: rest => let* _ := perform c in perform_all rest
  end.

(** What the constructor puts into every slot. *)
Definition placeholder : TEXTURE_INFO := Texture.mk "/0" GLuint_max.

(** The shape of the object between method calls: the counter within the
    sixteen-entry array, the pointer given to the constructor, handles in
    the [GLuint] range, and the constructor's placeholder in every slot
    from the counter on. *)
Definition scene_invariant (pShaderManager : pointer) (o : SceneManager) : Prop :=
  registry_ok o /\
  length (m_textureIDs o) = texture_capacity /\
  m_pShaderManager o = pShaderManager /\
  (forall (j : nat) (slot : TEXTURE_INFO),
     m_textureIDs o !! j = Some slot ->
     if (j <? Z.to_nat (m_loadedTextures o))%nat
     then 0 <= Texture.ID slot < 4294967296
     else slot = placeholder).

(** *** The authored materials *)

Section Authored.

(** [lit m d] stands for the [float] literal whose digits are those of
    [m], the last [d] of them after the decimal point: [0.05f] is
    [lit 5 2], [40.0f] is [lit 400 1]. *)
Variable lit : Z -> nat -> float.

(** The records of [DefineObjectMaterials], in the order of their
    [push_back]. *)
Definition defined_materials : list OBJECT_MATERIAL :=
  [
    (* groundMaterial *)
    mk_material (mk_vec3 (lit 5 2) (lit 3 2) (lit 2 2)) (lit 2 1)
      (mk_vec3 (lit 45 2) (lit 3 1) (lit 2 1)) (mk_vec3 (lit 2 1) (lit 2 1) (lit 2 1))
      (lit 30 1) "ground1";
    (* woodMaterial *)
    mk_material (mk_vec3 (lit 5 2) (lit 3 2) (lit 2 2)) (lit 2 1)
      (mk_vec3 (lit 45 2) (lit 3 1) (lit 2 1)) (mk_vec3 (lit 2 1) (lit 2 1) (lit 2 1))
      (lit 30 1) "wood1";
    (* glassMaterial *)
    mk_material (mk_vec3 (lit 5 2) (lit 5 2) (lit 5 2)) (lit 1 1)
      (mk_vec3 (lit 1 1) (lit 1 1) (lit 15 2)) (mk_vec3 (lit 4 1) (lit 4 1) (lit 4 1))
      (lit 40 1) "glass1";
    (* fabricMaterial *)
    mk_material (mk_vec3 (lit 5 2) (lit 5 2) (lit 5 2)) (lit 2 1)
      (mk_vec3 (lit 6 1) (lit 4 1) (lit 3 1)) (mk_vec3 (lit 1 1) (lit 1 1) (lit 1 1))
      (lit 1 1) "fabric03";
    (* onyxMaterial *)
    mk_material (mk_vec3 (lit 5 2) (lit 5 2) (lit 5 2)) (lit 2 1)
      (mk_vec3 (lit 2 1) (lit 2 1) (lit 2 1)) (mk_vec3 (lit 3 1) (lit 3 1) (lit 3 1))
      (lit 42 1) "Onyx2";
    (* laptopMaterial *)
    mk_material (mk_vec3 (lit 5 2) (lit 5 2) (lit 5 2)) (lit 2 1)
      (mk_vec3 (lit 3 1) (lit 3 1) (lit 3 1)) (mk_vec3 (lit 4 1) (lit 4 1) (lit 4 1))
      (lit 40 1) "laptop1";
    (* blackmetalMaterial *)
    mk_material (mk_vec3 (lit 5 2) (lit 5 2) (lit 5 2)) (lit 2 1)
      (mk_vec3 (lit 2 1) (lit 2 1) (lit 2 1)) (mk_vec3 (lit 5 1) (lit 5 1) (lit 5 1))
      (lit 9 1) "black_metal1";
    (* stainlessMaterial *)
    mk_material (mk_vec3 (lit 1 1) (lit 1 1) (lit 1 1)) (lit 2 1)
      (mk_vec3 (lit 7 1) (lit 7 1) (lit 7 1)) (mk_vec3 (lit 9 1) (lit 9 1) (lit 9 1))
      (lit 400 1) "stainless_end1";
    (* mouseMaterial *)
    mk_material (mk_vec3 (lit 5 2) (lit 5 2) (lit 5 2)) (lit 2 1)
      (mk_vec3 (lit 3 1) (lit 3 1) (lit 3 1)) (mk_vec3 (lit 4 1) (lit 4 1) (lit 4 1))
      (lit 60 1) "mouse2";
    (* waxMaterial *)
    mk_material (mk_vec3 (lit 1 1) (lit 1 1) (lit 1 1)) (lit 2 1)
      (mk_vec3 (lit 9 1) (lit 85 2) (lit 8 1)) (mk_vec3 (lit 3 1) (lit 3 1) (lit 3 1))
      (lit 70 1) "wax1";
    (* capMaterial *)
    mk_material (mk_vec3 (lit 1 1) (lit 1 1) (lit 1 1)) (lit 2 1)
      (mk_vec3 (lit 8 1) (lit 8 1) (lit 8 1)) (mk_vec3 (lit 9 1) (lit 9 1) (lit 9 1))
      (lit 10 1) "cap3";
    (* keyboardMaterial *)
    mk_material (mk_vec3 (lit 5 2) (lit 5 2) (lit 5 2)) (lit 2 1)
      (mk_vec3 (lit 2 1) (lit 2 1) (lit 2 1)) (mk_vec3 (lit 3 1) (lit 3 1) (lit 3 1))
      (lit 2 1) "keyboard1";
    (* matrixMaterial *)
    mk_material (mk_vec3 (lit 1 2) (lit 5 2) (lit 1 2)) (lit 1 1)
      (mk_vec3 (lit 0 1) (lit 2 1) (lit 0 1)) (mk_vec3 (lit 1 2) (lit 2 2) (lit 1 2))
      (lit 40 1) "Matrix1";
    (* mousepadMaterial *)
    mk_material (mk_vec3 (lit 5 2) (lit 5 2) (lit 5 2)) (lit 2 1)
      (mk_vec3 (lit 3 1) (lit 3 1) (lit 3 1)) (mk_vec3 (lit 1 1) (lit 1 1) (lit 1 1))
      (lit 3 1) "mousepad1";
    (* flameMaterial *)
    mk_material (mk_vec3 (lit 1 1) (lit 5 2) (lit 2 2)) (lit 3 1)
      (mk_vec3 (lit 10 1) (lit 5 1) (lit 2 1)) (mk_vec3 (lit 9 1) (lit 6 1) (lit 3 1))
      (lit 30 1) "flame1";
    (* saltMaterial *)
    mk_material (mk_vec3 (lit 1 1) (lit 1 1) (lit 1 1)) (lit 2 1)
      (mk_vec3 (lit 1 1) (lit 1 1) (lit 1 1)) (mk_vec3 (lit 3 1) (lit 3 1) (lit 3 1))
      (lit 0 1) "salt2";
    (* pepperMaterial *)
    mk_material (mk_vec3 (lit 5 2) (lit 5 2) (lit 5 2)) (lit 2 1)
      (mk_vec3 (lit 2 1) (lit 15 2) (lit 1 1)) (mk_vec3 (lit 2 1) (lit 2 1) (lit 2 1))
      (lit 10 1) "pepper1" ].

(** [SceneManager::DefineObjectMaterials] *)
Definition DefineObjectMaterials : M unit := push_back_each defined_materials.

End Authored.

End MoreVocabulary.

(** Decimal literals read as real numbers. *)
Definition R_lit (m : Z) (d : nat) : R := (IZR m / IZR (10 ^ Z.of_nat d))%R.

(** * Further concrete scenes *)

(** The disk of [example_disk] without [salt1.jpg]. *)
Definition sparse_disk (filename : string) : option stbi_image :=
  if String.eqb filename "textures/salt1.jpg" then None
  else example_disk filename.

Definition sparse_world : World (F := R_arith) :=
  mk_world raw_object [] sparse_disk counting_names 0.

(** Three textures, then a fourth registered under the tag of the first. *)
Definition scene_with_duplicate : World (F := R_arith) :=
  world_after (CreateGLTexture "textures/wood.jpg" "ground") (scene_with 3).

(** A constructed scene with the three materials tagged a, b, a. *)
Definition material_scene : World (F := R_arith) :=
  world_after
    (bind (construct 1)
       (fun _ => push_back_each [material_a_first; material_b; material_a_third]))
    blank_world.

(** A scene with materials but no shader manager. *)
Definition unshaded_material_scene : World (F := R_arith) :=
  world_after
    (bind (construct NULL) (fun _ => push_back_each [material_a_first]))
    blank_world.

(** A session: preparation, some lookups and uploads, a teardown of the
    textures, and a refused registration. *)
Definition session : list (method_call (F := R_arith)) :=
  [ call_LoadSceneTextures;
    call_push_back material_a_first;
    call_SetShaderTexture "wood";
    call_SetShaderMaterial "a" material_out;
    call_SetShaderTexture "salt1";
    call_DestroyGLTextures;
    call_CreateGLTexture "textures/grey_alpha.png" "grey";
    call_BindGLTextures ].

Definition scene_after_session : World (F := R_arith) :=
  world_after (bind (construct 1) (fun _ => perform_all session)) sparse_world.

(** The tenth material of [DefineObjectMaterials], the candle wax. *)
Definition wax_material : OBJECT_MATERIAL (F := R_arith) :=
  nth 9 (defined_materials (F := R_arith) R_lit) material_out.

(** * The model matrix as the spec words it

    The spec describes the matrix of [SetTransformations] as
    [translation * rotateX * rotateY * rotateZ * scale], the angles
    converted from degrees to radians.  The definitions below follow
    these words and not the code: matrices are given by their entries
    (row, then column), the product is the row-by-column sum, the
    rotations are the right-handed rotation matrices about the three
    axes, and a degree is [PI / 180].  They are over the real numbers:
    [float] arithmetic without rounding. *)

Inductive index := i0 | i1 | i2 | i3.












(** * Properties *)

Section Properties.

Context {F : FloatArith}.

Lemma registry_okb_sound (o : SceneManager) :
  registry_okb o = true -> registry_ok o.
Proof.
  unfold registry_okb, registry_ok. intros H.
  apply andb_true_iff in H. destruct H as [H1 H2].
  apply Z.leb_le in H1. apply Z.leb_le in H2. lia.
Qed.

Lemma no_tagb_sound (o : SceneManager) (tag : string) :
  no_tagb o tag = true -> no_tag_from o tag 0.
Proof.
  unfold no_tagb, no_tag_from, filled_slots. intros Hall j slot Hj Hlook.
  rewrite forallb_forall in Hall.
  assert (Hin : In slot (take (Z.to_nat (m_loadedTextures o)) (m_textureIDs o))).
  { apply list_elem_of_In.
    apply (list_elem_of_lookup_2 _ (Z.to_nat j)).
    rewrite lookup_take_lt by lia. exact Hlook. }
  specialize (Hall slot Hin). apply negb_true_iff in Hall.
  apply String.eqb_neq. exact Hall.
Qed.

Lemma slot_at_in_bounds (o : SceneManager) (i : Z) :
  0 <= i < Z.of_nat (length (m_textureIDs o)) ->
  exists slot, m_textureIDs o !! Z.to_nat i = Some slot /\ slot_at o i = Done slot.
Proof.
  intros Hi. unfold slot_at.
  destruct (Z.ltb_spec i 0) as [Hneg | _]; [lia |].
  destruct (lookup_lt_is_Some_2 (m_textureIDs o) (Z.to_nat i)) as [slot Hslot];
    [lia |].
  exists slot. rewrite Hslot. auto.
Qed.

Lemma slot_at_out_of_bounds (o : SceneManager) (i : Z) :
  Z.of_nat (length (m_textureIDs o)) <= i -> slot_at o i = Fault (OutOfBounds i).
Proof.
  intros Hi. unfold slot_at.
  destruct (Z.ltb_spec i 0) as [_ | _]; [reflexivity |].
  rewrite lookup_ge_None_2 by lia. reflexivity.
Qed.

(** Both texture lookups, run side by side from the same [index]: either
    neither finds the tag, or both stop at the same first match. *)
Lemma texture_lookups_from (o : SceneManager) (tag : string) :
  m_loadedTextures o <= Z.of_nat (length (m_textureIDs o)) ->
  forall (budget : nat) (index : Z),
    0 <= index ->
    m_loadedTextures o - index <= Z.of_nat budget ->
    (no_tag_from o tag index /\
     FindTextureSlot_while budget o tag (-1) index false = Done (-1) /\
     FindTextureID_while budget o tag (-1) index false = Done (-1))
    \/
    (exists k slot, first_tag_from o tag index k slot /\
       FindTextureSlot_while budget o tag (-1) index false = Done k /\
       FindTextureID_while budget o tag (-1) index false
         = Done (GLuint_to_int (Texture.ID slot))).
Proof.
  intros Hlen budget.
  induction budget as [| budget IH]; intros index Hidx Hbud.
  - left. split; [| split].
    + intros j slot Hj _. lia.
    + simpl. destruct (Z.ltb_spec index (m_loadedTextures o)); [lia | reflexivity].
    + simpl. destruct (Z.ltb_spec index (m_loadedTextures o)); [lia | reflexivity].
  - simpl. destruct (Z.ltb_spec index (m_loadedTextures o)) as [Hlt | Hge]; simpl.
    + destruct (slot_at_in_bounds o index) as [slot [Hlook Hat]]; [lia |].
      rewrite Hat. simpl.
      destruct (String.eqb_spec (Texture.tag slot) tag) as [Heq | Hne].
      * right. exists index, slot. split; [| split].
        -- repeat split; auto; try lia.
        -- destruct budget; simpl;
             destruct (Z.ltb_spec index (m_loadedTextures o)); reflexivity.
        -- destruct budget; simpl;
             destruct (Z.ltb_spec index (m_loadedTextures o)); reflexivity.
      * destruct (IH (index + 1)) as [[Hno [Hs Hi]] | [k [s [Hfirst [Hs Hi]]]]];
          [lia | lia | |].
        -- left. split; [| split]; auto.
           intros j s Hj Hjs.
           destruct (Z.eq_dec j index) as [-> | Hji].
           ++ rewrite Hlook in Hjs. inversion Hjs; subst. exact Hne.
           ++ apply (Hno j s); [lia | exact Hjs].
        -- right. exists k, s. split; [| split]; auto.
           destruct Hfirst as [Hk [Hks [Htag Hbefore]]].
           repeat split; auto; try lia.
           intros j s' Hj Hjs.
           destruct (Z.eq_dec j index) as [-> | Hji].
           ++ rewrite Hlook in Hjs. inversion Hjs; subst. exact Hne.
           ++ apply (Hbefore j s'); [lia | exact Hjs].
    + left. split; [| split]; auto.
      intros j slot Hj _. lia.
Qed.

(** *** Writes into the array *)

Lemma slot_update_in_bounds (w : World) (i : Z) (f : TEXTURE_INFO -> TEXTURE_INFO)
  (slot : TEXTURE_INFO) :
  0 <= i ->
  m_textureIDs (this w) !! Z.to_nat i = Some slot ->
  slot_update i f w
  = Done (tt, set_object
                (with_textureIDs (<[Z.to_nat i := f slot]> (m_textureIDs (this w)))
                   (this w)) w).
Proof.
  intros Hi Hlook. unfold slot_update, bind, get_this, lift, set_this, slot_at.
  destruct (Z.ltb_spec i 0) as [Hneg | _]; [lia |].
  rewrite Hlook. reflexivity.
Qed.

Lemma slot_update_out_of_bounds (w : World) (i : Z)
  (f : TEXTURE_INFO -> TEXTURE_INFO) :
  Z.of_nat (length (m_textureIDs (this w))) <= i ->
  slot_update i f w = Fault (OutOfBounds i).
Proof.
  intros Hi. unfold slot_update, bind, get_this, lift.
  rewrite slot_at_out_of_bounds by exact Hi. reflexivity.
Qed.

Ltac step_monad :=
  unfold CreateGLTexture, call_stbi_load, call_glGenTextures, bind, emit, ret,
    get_this, set_this, lift, raise; simpl.

(** A registration with room in the table appends one entry. *)
Lemma CreateGLTexture_appends (w : World) (filename tag : string)
  (img : stbi_image) :
  disk w filename = Some img ->
  colorChannels img = 3 \/ colorChannels img = 4 ->
  0 <= m_loadedTextures (this w) < Z.of_nat (length (m_textureIDs (this w))) ->
  CreateGLTexture filename tag w
  = Done (true,
          mk_world
            (mk_scene (m_pShaderManager (this w))
               (<[Z.to_nat (m_loadedTextures (this w))
                  := Texture.mk tag (next_name w)]> (m_textureIDs (this w)))
               (m_loadedTextures (this w) + 1)
               (m_objectMaterials (this w)))
            (trace w ++ upload_events filename img (next_name w))
            (disk w) (gl_names w) (S (gl_generated w))).
Proof.
  intros Hdisk Hch Hroom.
  destruct (slot_at_in_bounds (this w) (m_loadedTextures (this w)))
    as [slot [Hlook Hat]]; [exact Hroom |].
  unfold upload_events, next_name.
  step_monad. rewrite Hdisk. simpl.
  destruct Hch as [Hc | Hc]; rewrite Hc; simpl.
  all: rewrite (slot_update_in_bounds _ _ _ slot); [| simpl; lia | exact Hlook].
  all: rewrite (slot_update_in_bounds _ _ _ (set_ID (to_GLuint (gl_names w (gl_generated w))) slot));
    [| lia | simpl; apply list_lookup_insert_eq; lia].
  all: simpl; unfold with_loadedTextures, with_textureIDs; simpl.
  all: rewrite list_insert_insert_eq, <- !app_assoc; reflexivity.
Qed.

(** With the counter at the end of the array the store
    [m_textureIDs[m_loadedTextures].ID = textureID] is out of bounds. *)
Lemma CreateGLTexture_no_room (w : World) (filename tag : string)
  (img : stbi_image) :
  disk w filename = Some img ->
  colorChannels img = 3 \/ colorChannels img = 4 ->
  Z.of_nat (length (m_textureIDs (this w))) <= m_loadedTextures (this w) ->
  CreateGLTexture filename tag w = Fault (OutOfBounds (m_loadedTextures (this w))).
Proof.
  intros Hdisk Hch Hfull.
  step_monad. rewrite Hdisk. simpl.
  destruct Hch as [Hc | Hc]; rewrite Hc; simpl.
  all: rewrite slot_update_out_of_bounds by (simpl; lia); reflexivity.
Qed.

Lemma CreateGLTexture_refuses (w : World) (filename tag : string)
  (img : stbi_image) :
  disk w filename = Some img ->
  colorChannels img <> 3 ->
  colorChannels img <> 4 ->
  CreateGLTexture filename tag w
  = Done (false,
          mk_world (this w)
            (trace w ++ refused_events filename img (next_name w))
            (disk w) (gl_names w) (S (gl_generated w))).
Proof.
  intros Hdisk H3 H4. unfold refused_events, next_name.
  step_monad. rewrite Hdisk. simpl.
  destruct (Z.eqb_spec (colorChannels img) 3) as [E | _]; [contradiction |].
  destruct (Z.eqb_spec (colorChannels img) 4) as [E | _]; [contradiction |].
  simpl. rewrite <- !app_assoc. reflexivity.
Qed.

Lemma CreateGLTexture_not_loaded (w : World) (filename tag : string) :
  disk w filename = None ->
  CreateGLTexture filename tag w
  = Done (false,
          mk_world (this w)
            (trace w ++ [stbi_set_flip_vertically_on_load true;
                         stbi_load filename;
                         cout (Could_not_load_image filename)])
            (disk w) (gl_names w) (gl_generated w)).
Proof.
  intros Hdisk. step_monad. rewrite Hdisk. simpl.
  rewrite <- !app_assoc. reflexivity.
Qed.

(** What a registration that ran to its end did to the object. *)
Lemma CreateGLTexture_Done (w w' : World) (filename tag : string) (b : bool) :
  registry_ok (this w) ->
  CreateGLTexture filename tag w = Done (b, w') ->
  disk w' = disk w /\
  if b then
    m_loadedTextures (this w) < Z.of_nat (length (m_textureIDs (this w))) /\
    this w' = mk_scene (m_pShaderManager (this w))
                (<[Z.to_nat (m_loadedTextures (this w))
                   := Texture.mk tag (next_name w)]> (m_textureIDs (this w)))
                (m_loadedTextures (this w) + 1)
                (m_objectMaterials (this w))
  else this w' = this w.
Proof.
  intros Hok Hrun.
  destruct (disk w filename) as [img |] eqn:Hdisk.
  - destruct (Z.eq_dec (colorChannels img) 3) as [H3 | H3];
      [| destruct (Z.eq_dec (colorChannels img) 4) as [H4 | H4]].
    3: { rewrite (CreateGLTexture_refuses w filename tag img) in Hrun by auto.
         inversion Hrun; subst. auto. }
    all: destruct (Z.lt_ge_cases (m_loadedTextures (this w))
                     (Z.of_nat (length (m_textureIDs (this w))))) as [Hlt | Hge].
    all: try (rewrite (CreateGLTexture_no_room w filename tag img) in Hrun by auto;
              discriminate).
    all: rewrite (CreateGLTexture_appends w filename tag img) in Hrun
           by (auto; destruct Hok; lia).
    all: inversion Hrun; subst; simpl; auto.
  - rewrite CreateGLTexture_not_loaded in Hrun by exact Hdisk.
    inversion Hrun; subst. auto.
Qed.

Lemma registry_ok_after (w w' : World) (filename tag : string) (b : bool) :
  registry_ok (this w) ->
  CreateGLTexture filename tag w = Done (b, w') ->
  registry_ok (this w') /\
  length (m_textureIDs (this w')) = length (m_textureIDs (this w)) /\
  m_loadedTextures (this w') = m_loadedTextures (this w) + (if b then 1 else 0).
Proof.
  intros Hok Hrun.
  destruct (CreateGLTexture_Done w w' filename tag b Hok Hrun) as [_ Hb].
  unfold registry_ok in *. destruct b.
  - destruct Hb as [Hlt ->]. simpl. rewrite length_insert. lia.
  - rewrite Hb. lia.
Qed.

(** The counter advances by exactly the number of [true] results. *)
Lemma register_counting_counts (calls : list (string * string)) :
  forall (w w' : World) (n : Z),
    registry_ok (this w) ->
    register_counting calls w = Done (n, w') ->
    registry_ok (this w') /\
    length (m_textureIDs (this w')) = length (m_textureIDs (this w)) /\
    disk w' = disk w /\
    m_loadedTextures (this w') = m_loadedTextures (this w) + n.
Proof.
  induction calls as [| [filename tag] rest IH]; intros w w' n Hok Hrun.
  - inversion Hrun; subst. repeat split; auto; try apply Hok; lia.
  - simpl in Hrun. unfold bind at 1 in Hrun.
    destruct (CreateGLTexture filename tag w) as [[b w1] | e] eqn:Hfirst;
      [| discriminate].
    destruct (registry_ok_after w w1 filename tag b Hok Hfirst) as [Hok1 [Hl1 Hn1]].
    destruct (CreateGLTexture_Done w w1 filename tag b Hok Hfirst) as [Hd1 _].
    unfold bind in Hrun.
    destruct (register_counting rest w1) as [[m w2] | e] eqn:Hrest; [| discriminate].
    inversion Hrun; subst.
    destruct (IH w1 w' m Hok1 Hrest) as [Hok2 [Hl2 [Hd2 Hn2]]].
    repeat split; try apply Hok2; try congruence; lia.
Qed.

(** The object the constructor leaves behind. *)
Lemma construct_result (pShaderManager : pointer) (w : World) :
  construct pShaderManager w
  = Done (tt, set_object
                (mk_scene pShaderManager
                   (replicate texture_capacity (Texture.mk "/0" GLuint_max)) 0 [])
                w).
Proof. reflexivity. Qed.

Lemma bind_Done {A B : Type} (m : M A) (k : A -> M B) (w : World)
  (r : B * World) :
  bind m k w = Done r ->
  exists (a : A) (w1 : World), m w = Done (a, w1) /\ k a w1 = Done r.
Proof.
  unfold bind. destruct (m w) as [[a w1] | e]; [| discriminate].
  intros Hk. exists a, w1. auto.
Qed.

Lemma after_construct_counts
  (pShaderManager : pointer) (calls : list (string * string))
  (w0 w : World) (n : Z) :
  bind (construct pShaderManager) (fun _ => register_counting calls) w0
    = Done (n, w) ->
  registry_ok (this w) /\
  length (m_textureIDs (this w)) = texture_capacity /\
  m_loadedTextures (this w) = n.
Proof.
  intros Hrun.
  apply bind_Done in Hrun. destruct Hrun as [a [w1 [Hctor Hrun]]].
  rewrite construct_result in Hctor. inversion Hctor; subst w1. clear Hctor.
  apply register_counting_counts in Hrun;
    [| unfold registry_ok; simpl; lia].
  destruct Hrun as [Hok [Hlen [_ Hn]]].
  split; [exact Hok |]. split.
  - rewrite Hlen. simpl. reflexivity.
  - rewrite Hn. simpl. reflexivity.
Qed.

Lemma GLuint_to_int_sentinel (u : Z) :
  GLuint_to_int u = -1 <-> u mod 4294967296 = GLuint_max.
Proof.
  unfold GLuint_to_int, GLuint_max.
  pose proof (Z.mod_pos_bound u 4294967296 ltac:(lia)) as Hb.
  destruct (Z.ltb_spec (u mod 4294967296) 2147483648); lia.
Qed.

Lemma GLuint_to_int_small (u : Z) : 0 <= u < 2147483648 -> GLuint_to_int u = u.
Proof.
  intros Hu. unfold GLuint_to_int.
  rewrite Z.mod_small by lia.
  destruct (Z.ltb_spec u 2147483648); lia.
Qed.

(** ** The claims about the texture table *)

(** C1 (the code departs from it).  With the sixteen slots of the table
    filled, [CreateGLTexture] on a decodable 3- or 4-channel image does
    not return failure: it reaches the store into
    [m_textureIDs[m_loadedTextures]] with the index 16, one past the
    table, which the embedding reports as an out-of-bounds fault. *)
Theorem CreateGLTexture_full_table_store_out_of_bounds
  (w : World) (filename tag : string) (img : stbi_image) :
  length (m_textureIDs (this w)) = texture_capacity ->
  m_loadedTextures (this w) = 16 ->
  disk w filename = Some img ->
  colorChannels img = 3 \/ colorChannels img = 4 ->
  CreateGLTexture filename tag w = Fault (OutOfBounds 16) /\
  forall w', CreateGLTexture filename tag w <> Done (false, w').
Proof.
  intros Hlen Hcount Hdisk Hch.
  assert (Hrun : CreateGLTexture filename tag w = Fault (OutOfBounds 16)).
  { rewrite (CreateGLTexture_no_room w filename tag img Hdisk Hch).
    - rewrite Hcount. reflexivity.
    - rewrite Hlen, Hcount. unfold texture_capacity. lia. }
  split; [exact Hrun |].
  intros w' Hfalse. rewrite Hrun in Hfalse. discriminate.
Qed.

(** C5.  An image that decodes with a channel count other than 3 or 4
    makes [CreateGLTexture] return [false]; the fill counter and every
    entry of the table are as before the call. *)
Theorem CreateGLTexture_unsupported_channels
  (w : World) (filename tag : string) (img : stbi_image) :
  disk w filename = Some img ->
  colorChannels img <> 3 ->
  colorChannels img <> 4 ->
  exists w', CreateGLTexture filename tag w = Done (false, w') /\
             m_loadedTextures (this w') = m_loadedTextures (this w) /\
             m_textureIDs (this w') = m_textureIDs (this w).
Proof.
  intros Hdisk H3 H4.
  eexists. split.
  - apply (CreateGLTexture_refuses w filename tag img Hdisk H3 H4).
  - simpl. auto.
Qed.

(** C6.  When no filled slot carries the tag, [FindTextureSlot] returns
    the sentinel -1. *)
Theorem FindTextureSlot_unregistered (o : SceneManager) (tag : string) :
  registry_ok o ->
  no_tag_from o tag 0 ->
  FindTextureSlot tag o = Done (-1).
Proof.
  intros [Hlo Hhi] Hno. unfold FindTextureSlot.
  destruct (texture_lookups_from o tag Hhi (Z.to_nat (m_loadedTextures o)) 0)
    as [[_ [Hslot _]] | [k [slot [[Hk [Hlook [Htag _]]] _]]]]; try lia.
  - exact Hslot.
  - exfalso. exact (Hno k slot Hk Hlook Htag).
Qed.

(** C4.  After the constructor and any sequence of registrations of which
    [n] returned [true], a further registration with tag [t] that returns
    [true] is followed by a [FindTextureSlot t] whose result [i] satisfies
    [0 <= i < n + 1]; and with [n < 16] a decodable 3- or 4-channel image
    does make the registration return [true]. *)
Theorem register_then_FindTextureSlot
  (pShaderManager : pointer) (calls : list (string * string))
  (w0 w : World) (n : Z) (filename t : string) (img : stbi_image) :
  bind (construct pShaderManager) (fun _ => register_counting calls) w0
    = Done (n, w) ->
  disk w filename = Some img ->
  colorChannels img = 3 \/ colorChannels img = 4 ->
  (forall w', CreateGLTexture filename t w = Done (true, w') ->
     exists i, FindTextureSlot t (this w') = Done i /\ 0 <= i < n + 1) /\
  (n < 16 -> exists w', CreateGLTexture filename t w = Done (true, w')).
Proof.
  intros Hrun Hdisk Hch.
  destruct (after_construct_counts pShaderManager calls w0 w n Hrun)
    as [Hok [Hlen Hn]].
  split.
  - intros w' Hreg.
    destruct (CreateGLTexture_Done w w' filename t true Hok Hreg) as [_ [Hlt Hobj]].
    unfold FindTextureSlot.
    destruct (texture_lookups_from (this w') t) with
      (budget := Z.to_nat (m_loadedTextures (this w'))) (index := 0)
      as [[Hno _] | [k [slot [[Hk _] [Hslot _]]]]].
    + rewrite Hobj. simpl. rewrite length_insert. lia.
    + lia.
    + rewrite Hobj. simpl. destruct Hok. lia.
    + exfalso.
      apply (Hno (m_loadedTextures (this w)) (Texture.mk t (next_name w))).
      * rewrite Hobj. simpl. destruct Hok. lia.
      * rewrite Hobj. simpl. apply list_lookup_insert_eq. destruct Hok. lia.
      * reflexivity.
    + exists k. split; [exact Hslot |].
      rewrite Hobj in Hk. simpl in Hk. lia.
  - intros Hroom. eexists.
    apply (CreateGLTexture_appends w filename t img Hdisk Hch).
    destruct Hok. rewrite Hlen. unfold texture_capacity. lia.
Qed.

(** C9 (as amended).  [FindTextureSlot] and [FindTextureID] stop at the
    same entry.  If the slot lookup returns -1, so does the handle lookup;
    if the slot lookup returns an index [i >= 0], the handle lookup
    returns the handle of slot [i] converted from [GLuint] to [int], which
    is the handle itself when it is below 2^31.  The converse for -1
    holds when no filled slot holds the handle 0xFFFFFFFF, the one
    [GLuint] that converts to -1. *)
Theorem FindTextureSlot_FindTextureID_same_entry (o : SceneManager) (tag : string) :
  registry_ok o ->
  (FindTextureSlot tag o = Done (-1) -> FindTextureID tag o = Done (-1)) /\
  (forall i, 0 <= i -> FindTextureSlot tag o = Done i ->
     exists slot, m_textureIDs o !! Z.to_nat i = Some slot /\
       FindTextureID tag o = Done (GLuint_to_int (Texture.ID slot)) /\
       (0 <= Texture.ID slot < 2147483648 ->
        FindTextureID tag o = Done (Texture.ID slot))) /\
  ((forall j slot, 0 <= j < m_loadedTextures o ->
      m_textureIDs o !! Z.to_nat j = Some slot ->
      Texture.ID slot mod 4294967296 <> GLuint_max) ->
   FindTextureID tag o = Done (-1) -> FindTextureSlot tag o = Done (-1)).
Proof.
  intros [Hlo Hhi]. unfold FindTextureSlot, FindTextureID.
  destruct (texture_lookups_from o tag Hhi (Z.to_nat (m_loadedTextures o)) 0)
    as [[_ [Hslot Hid]] | [k [slot [[Hk [Hlook [Htag _]]] [Hslot Hid]]]]];
    try lia; rewrite Hslot, Hid.
  - split; [auto | split]; [| auto].
    intros i Hi Heq. inversion Heq. lia.
  - split; [| split].
    + intros Heq. inversion Heq. lia.
    + intros i Hi Heq. inversion Heq; subst i.
      exists slot. split; [exact Hlook | split; [reflexivity |]].
      intros Hsmall. rewrite GLuint_to_int_small by exact Hsmall. reflexivity.
    + intros Hnever Heq. inversion Heq as [Hconv].
      apply GLuint_to_int_sentinel in Hconv.
      exfalso. exact (Hnever k slot Hk Hlook Hconv).
Qed.

(** ** The claims about the material list *)

Lemma material_at_in_bounds (o : SceneManager) (i : Z) :
  0 <= i < Z.of_nat (length (m_objectMaterials o)) ->
  exists entry, m_objectMaterials o !! Z.to_nat i = Some entry /\
                material_at o i = Done entry.
Proof.
  intros Hi. unfold material_at.
  destruct (Z.ltb_spec i 0) as [Hneg | _]; [lia |].
  destruct (lookup_lt_is_Some_2 (m_objectMaterials o) (Z.to_nat i))
    as [entry Hentry]; [lia |].
  exists entry. rewrite Hentry. auto.
Qed.

(** The scan of [FindMaterial] from [index]: it leaves [material] alone
    when no entry from there on carries the tag, and otherwise assigns the
    fields of the first such entry. *)
Lemma FindMaterial_while_scan (o : SceneManager) (t : string)
  (material : OBJECT_MATERIAL) :
  forall (budget : nat) (index : Z),
    0 <= index ->
    Z.of_nat (length (m_objectMaterials o)) - index <= Z.of_nat budget ->
    ((forall j entry, index <= j ->
        m_objectMaterials o !! Z.to_nat j = Some entry -> tag entry <> t) /\
     FindMaterial_while budget o t material index false = Done material)
    \/
    (exists k entry,
       index <= k /\
       m_objectMaterials o !! Z.to_nat k = Some entry /\
       tag entry = t /\
       (forall j e, index <= j < k ->
          m_objectMaterials o !! Z.to_nat j = Some e -> tag e <> t) /\
       FindMaterial_while budget o t material index false
         = Done (assign_fields entry material)).
Proof.
  induction budget as [| budget IH]; intros index Hidx Hbud.
  - left. split.
    + intros j entry Hj Hlook. apply lookup_lt_Some in Hlook. lia.
    + simpl.
      destruct (Z.ltb_spec index (Z.of_nat (length (m_objectMaterials o))));
        [lia | reflexivity].
  - simpl.
    destruct (Z.ltb_spec index (Z.of_nat (length (m_objectMaterials o))))
      as [Hlt | Hge]; simpl.
    + destruct (material_at_in_bounds o index) as [entry [Hlook Hat]]; [lia |].
      rewrite Hat. simpl.
      destruct (String.eqb_spec (tag entry) t) as [Heq | Hne].
      * right. exists index, entry.
        repeat split; auto; try lia.
        destruct budget; simpl;
          destruct (Z.ltb_spec index (Z.of_nat (length (m_objectMaterials o))));
          reflexivity.
      * destruct (IH (index + 1)) as [[Hno Hrun] | [k [e [Hk [Hke [Htag [Hbefore Hrun]]]]]]];
          [lia | lia | |].
        -- left. split; [| exact Hrun].
           intros j e Hj Hje.
           destruct (Z.eq_dec j index) as [-> | Hji].
           ++ rewrite Hlook in Hje. inversion Hje; subst. exact Hne.
           ++ apply (Hno j e); [lia | exact Hje].
        -- right. exists k, e.
           repeat split; auto; try lia.
           intros j e' Hj Hje.
           destruct (Z.eq_dec j index) as [-> | Hji].
           ++ rewrite Hlook in Hje. inversion Hje; subst. exact Hne.
           ++ apply (Hbefore j e'); [lia | exact Hje].
    + left. split; [| reflexivity].
      intros j entry Hj Hlook. apply lookup_lt_Some in Hlook. lia.
Qed.

(** The first entry carrying the tag decides the result. *)
Lemma FindMaterial_first_match (o : SceneManager) (t : string)
  (material entry : OBJECT_MATERIAL) (pre post : list OBJECT_MATERIAL) :
  m_objectMaterials o = (pre ++ entry :: post)%list ->
  Forall (fun e => tag e <> t) pre ->
  tag entry = t ->
  FindMaterial t material o = Done (true, assign_fields entry material).
Proof.
  intros Hlist Hpre Htag. unfold FindMaterial.
  assert (Hlen : length (m_objectMaterials o) = (length pre + S (length post))%nat).
  { rewrite Hlist, length_app. reflexivity. }
  destruct (Z.eqb_spec (Z.of_nat (length (m_objectMaterials o))) 0) as [E | _];
    [lia |].
  assert (Hat : m_objectMaterials o !! length pre = Some entry).
  { rewrite Hlist. rewrite lookup_app_r by lia.
    replace (length pre - length pre)%nat with 0%nat by lia. reflexivity. }
  destruct (FindMaterial_while_scan o t material (length (m_objectMaterials o)) 0)
    as [[Hno _] | [k [e [Hk [Hke [Hte [Hbefore Hrun]]]]]]]; try lia.
  - exfalso. apply (Hno (Z.of_nat (length pre)) entry); [lia | | exact Htag].
    rewrite Nat2Z.id. exact Hat.
  - rewrite Hrun. simpl.
    assert (Hkeq : Z.to_nat k = length pre).
    { destruct (Nat.lt_trichotomy (Z.to_nat k) (length pre)) as [Hlt | [Heq | Hgt]].
      - exfalso. rewrite Hlist, lookup_app_l in Hke by exact Hlt.
        exact (Forall_lookup_1 _ pre (Z.to_nat k) e Hpre Hke Hte).
      - exact Heq.
      - exfalso. apply (Hbefore (Z.of_nat (length pre)) entry); [lia | | exact Htag].
        rewrite Nat2Z.id. exact Hat. }
    rewrite Hkeq, Hat in Hke. inversion Hke; subst. reflexivity.
Qed.

(** C2.  [FindMaterial] returns [false] exactly when the material list is
    empty.  On a non-empty list it returns [true] for every tag, and when
    no entry carries the tag the record passed in comes back as it was. *)
Theorem FindMaterial_false_only_when_empty (o : SceneManager) (t : string)
  (material : OBJECT_MATERIAL) :
  (m_objectMaterials o = [] /\ FindMaterial t material o = Done (false, material))
  \/
  (m_objectMaterials o <> [] /\
   exists material', FindMaterial t material o = Done (true, material') /\
     (Forall (fun e => tag e <> t) (m_objectMaterials o) -> material' = material)).
Proof.
  unfold FindMaterial.
  destruct (m_objectMaterials o) as [| first rest] eqn:Hlist.
  - left. simpl. auto.
  - right. split; [discriminate |].
    destruct (Z.eqb_spec (Z.of_nat (length (first :: rest))) 0) as [E | _];
      [simpl in E; lia |].
    rewrite <- Hlist.
    destruct (FindMaterial_while_scan o t material (length (m_objectMaterials o)) 0)
      as [[Hno Hrun] | [k [e [Hk [Hke [Hte [_ Hrun]]]]]]]; try lia;
      rewrite Hrun; simpl; eexists; split; try reflexivity.
    intros Hall. exfalso.
    exact (Forall_lookup_1 _ _ (Z.to_nat k) e Hall Hke Hte).
Qed.


(** ** The claims about the shader glue *)

(** C10.  With a null [m_pShaderManager] the four setters return with
    the world as it was: no uniform write is added to the trace, and the
    texture table, the fill counter and the material list are untouched. *)
Theorem setters_do_nothing_without_shader_manager (w : World)
  (scaleXYZ positionXYZ : vec3) (xdeg ydeg zdeg r g b a u v : float)
  (textureTag : string) :
  m_pShaderManager (this w) = NULL ->
  SetTransformations scaleXYZ xdeg ydeg zdeg positionXYZ w = Done (tt, w) /\
  SetShaderColor r g b a w = Done (tt, w) /\
  SetShaderTexture textureTag w = Done (tt, w) /\
  SetTextureUVScale u v w = Done (tt, w).
Proof.
  intros Hnull.
  unfold SetTransformations, SetShaderColor, SetShaderTexture, SetTextureUVScale,
    bind, get_this.
  rewrite Hnull. simpl. auto.
Qed.










(** ** Teardown *)

Lemma DestroyGLTextures_body_step (w : World) (i : Z) (slot : TEXTURE_INFO) :
  0 <= i ->
  m_textureIDs (this w) !! Z.to_nat i = Some slot ->
  DestroyGLTextures_body i w
  = Done (tt, mk_world
                (with_textureIDs
                   (<[Z.to_nat i := Texture.mk (Texture.tag slot) (next_name w)]>
                      (m_textureIDs (this w)))
                   (this w))
                (trace w ++ [glGenTextures (next_name w)])
                (disk w) (gl_names w) (S (gl_generated w))).
Proof.
  intros Hi Hlook.
  unfold DestroyGLTextures_body, bind, get_this, lift, call_glGenTextures, slot_at.
  destruct (Z.ltb_spec i 0) as [Hneg | _]; [lia |].
  rewrite Hlook.
  rewrite (slot_update_in_bounds _ i _ slot) by (simpl; auto).
  reflexivity.
Qed.

(** The loop of [DestroyGLTextures] from index [i] on: it runs to the
    end and every call it issues is a [glGenTextures]. *)
Lemma DestroyGLTextures_loop (budget : nat) :
  forall (i : Z) (w : World),
    0 <= i ->
    m_loadedTextures (this w) - i <= Z.of_nat budget ->
    m_loadedTextures (this w) <= Z.of_nat (length (m_textureIDs (this w))) ->
    exists (w' : World) (names : list Z),
      for_loop budget below_loadedTextures DestroyGLTextures_body i w
        = Done (tt, w') /\
      trace w' = (trace w ++ map glGenTextures names)%list /\
      length names = Z.to_nat (m_loadedTextures (this w) - i).
Proof.
  induction budget as [| budget IH]; intros i w Hi Hbud Hlen.
  - exists w, []. simpl. unfold bind, below_loadedTextures, get_this, ret. simpl.
    destruct (Z.ltb_spec i (m_loadedTextures (this w))); [lia |].
    rewrite app_nil_r. repeat split. lia.
  - simpl. unfold bind at 1, below_loadedTextures, bind, get_this, ret.
    destruct (Z.ltb_spec i (m_loadedTextures (this w))) as [Hlt | Hge].
    + destruct (slot_at_in_bounds (this w) i) as [slot [Hlook _]]; [lia |].
      rewrite (DestroyGLTextures_body_step w i slot Hi Hlook).
      match goal with
      | |- context [for_loop budget _ _ (i + 1) ?w1] =>
        destruct (IH (i + 1) w1) as [w' [names [Hrun [Htrace Hnames]]]]
      end; simpl; try rewrite length_insert; try lia.
      exists w', (next_name w :: names). split; [exact Hrun | split].
      * rewrite Htrace. simpl. rewrite <- app_assoc. reflexivity.
      * simpl in Hnames. simpl. rewrite Hnames. lia.
    + exists w, []. simpl. rewrite app_nil_r. repeat split. lia.
Qed.

(** C3 (the code departs from it).  On a well-formed registry the
    destructor's [DestroyGLTextures] runs to its end having issued, for
    the filled slots, one [glGenTextures] call each and nothing else: no
    [glDeleteTextures] reaches the texture backend. *)
Theorem teardown_generates_instead_of_deleting (w : World) :
  registry_ok (this w) ->
  exists (w' : World) (names : list Z),
    SceneManager_dtor w = Done (tt, w') /\
    trace w' = (trace w ++ map glGenTextures names)%list /\
    length names = Z.to_nat (m_loadedTextures (this w)) /\
    forall name, ~ In (glDeleteTextures name) (map glGenTextures names).
Proof.
  intros [Hlo Hhi].
  unfold SceneManager_dtor, DestroyGLTextures, bind, get_this, set_this. simpl.
  match goal with
  | |- context [for_loop ?b _ _ 0 ?w1] =>
    destruct (DestroyGLTextures_loop b 0 w1) as [w' [names [Hrun [Htrace Hnames]]]]
  end; simpl; try lia.
  exists w', names. rewrite Hrun. simpl in Htrace, Hnames.
  rewrite Z.sub_0_r in Hnames.
  repeat split; auto.
  intros name Hin. apply in_map_iff in Hin. destruct Hin as [x [Hx _]].
  discriminate.
Qed.

End Properties.

(** * Further properties *)

Section MoreProperties.

Context {F : FloatArith}.

(** ** Lookups in the texture table *)

Lemma lookups_cases (o : SceneManager) (tag : string) :
  registry_ok o ->
  (no_tag_from o tag 0 /\
   FindTextureSlot tag o = Done (-1) /\ FindTextureID tag o = Done (-1))
  \/
  (exists k slot, first_tag_from o tag 0 k slot /\
     FindTextureSlot tag o = Done k /\
     FindTextureID tag o = Done (GLuint_to_int (Texture.ID slot))).
Proof.
  intros [Hlo Hhi]. unfold FindTextureSlot, FindTextureID.
  apply (texture_lookups_from o tag Hhi); lia.
Qed.

Lemma first_tag_unique (o : SceneManager) (tag : string) (k k' : Z)
  (slot slot' : TEXTURE_INFO) :
  first_tag_from o tag 0 k slot -> first_tag_from o tag 0 k' slot' ->
  k = k' /\ slot = slot'.
Proof.
  intros [Hk [Hlook [Htag Hbefore]]] [Hk' [Hlook' [Htag' Hbefore']]].
  assert (Heq : k = k').
  { destruct (Z.lt_trichotomy k k') as [Hlt | [Heq | Hgt]]; [| exact Heq |].
    - exfalso. apply (Hbefore' k slot); [lia | exact Hlook | exact Htag].
    - exfalso. apply (Hbefore k' slot'); [lia | exact Hlook' | exact Htag']. }
  subst k'. split; [reflexivity | congruence].
Qed.

Lemma lookups_of_first_tag (o : SceneManager) (tag : string) (k : Z)
  (slot : TEXTURE_INFO) :
  registry_ok o ->
  first_tag_from o tag 0 k slot ->
  FindTextureSlot tag o = Done k /\
  FindTextureID tag o = Done (GLuint_to_int (Texture.ID slot)).
Proof.
  intros Hok Hfirst.
  destruct (lookups_cases o tag Hok)
    as [[Hno _] | [k' [slot' [Hfirst' [Hslot Hid]]]]].
  - exfalso. destruct Hfirst as [Hk [Hlook [Htag _]]].
    exact (Hno k slot Hk Hlook Htag).
  - destruct (first_tag_unique o tag k k' slot slot' Hfirst Hfirst') as [-> ->].
    auto.
Qed.

Lemma lookups_of_no_tag (o : SceneManager) (tag : string) :
  registry_ok o ->
  no_tag_from o tag 0 ->
  FindTextureSlot tag o = Done (-1) /\ FindTextureID tag o = Done (-1).
Proof.
  intros Hok Hno.
  destruct (lookups_cases o tag Hok)
    as [[_ Hres] | [k [slot [[Hk [Hlook [Htag _]]] _]]]]; [exact Hres |].
  exfalso. exact (Hno k slot Hk Hlook Htag).
Qed.

Lemma first_tag_of_slot_result (o : SceneManager) (tag : string) (k : Z) :
  registry_ok o ->
  FindTextureSlot tag o = Done k -> 0 <= k ->
  exists slot, first_tag_from o tag 0 k slot.
Proof.
  intros Hok Hres Hk.
  destruct (lookups_cases o tag Hok)
    as [[_ [Hslot _]] | [k' [slot [Hfirst [Hslot _]]]]];
    rewrite Hslot in Hres; inversion Hres; subst.
  - lia.
  - exists slot. exact Hfirst.
Qed.

(** *** The table after a registration *)

Lemma with_new_texture_ok (o : SceneManager) (tag : string) (name : Z) :
  registry_ok o ->
  m_loadedTextures o < Z.of_nat (length (m_textureIDs o)) ->
  registry_ok (with_new_texture tag name o).
Proof.
  unfold registry_ok, with_new_texture. simpl. rewrite length_insert. lia.
Qed.

Lemma with_new_texture_old_slot (o : SceneManager) (tag : string) (name j : Z) :
  0 <= j < m_loadedTextures o ->
  m_textureIDs (with_new_texture tag name o) !! Z.to_nat j
  = m_textureIDs o !! Z.to_nat j.
Proof.
  intros Hj. unfold with_new_texture. simpl.
  apply list_lookup_insert_ne. lia.
Qed.

Lemma with_new_texture_new_slot (o : SceneManager) (tag : string) (name : Z) :
  0 <= m_loadedTextures o < Z.of_nat (length (m_textureIDs o)) ->
  m_textureIDs (with_new_texture tag name o) !! Z.to_nat (m_loadedTextures o)
  = Some (Texture.mk tag name).
Proof.
  intros Hroom. unfold with_new_texture. simpl.
  apply list_lookup_insert_eq. lia.
Qed.

(** An earlier first match stays the first match. *)
Lemma first_tag_kept (o : SceneManager) (tag tag' : string) (name k : Z)
  (slot : TEXTURE_INFO) :
  first_tag_from o tag' 0 k slot ->
  first_tag_from (with_new_texture tag name o) tag' 0 k slot.
Proof.
  intros [Hk [Hlook [Htag Hbefore]]].
  split; [simpl; lia |]. split; [| split; [exact Htag |]].
  - rewrite with_new_texture_old_slot by lia. exact Hlook.
  - intros j s Hj Hjs. rewrite with_new_texture_old_slot in Hjs by lia.
    exact (Hbefore j s Hj Hjs).
Qed.

(** A tag absent before and different from the new one stays absent. *)
Lemma no_tag_kept (o : SceneManager) (tag tag' : string) (name : Z) :
  0 <= m_loadedTextures o < Z.of_nat (length (m_textureIDs o)) ->
  tag' <> tag ->
  no_tag_from o tag' 0 ->
  no_tag_from (with_new_texture tag name o) tag' 0.
Proof.
  intros Hroom Hne Hno j s Hj Hjs. simpl in Hj.
  destruct (Z.eq_dec j (m_loadedTextures o)) as [-> | Hjn].
  - rewrite with_new_texture_new_slot in Hjs by exact Hroom.
    inversion Hjs; subst. simpl. congruence.
  - rewrite with_new_texture_old_slot in Hjs by lia.
    apply (Hno j s); [lia | exact Hjs].
Qed.

(** A tag absent before is first found in the new slot. *)
Lemma new_tag_first (o : SceneManager) (tag : string) (name : Z) :
  0 <= m_loadedTextures o < Z.of_nat (length (m_textureIDs o)) ->
  no_tag_from o tag 0 ->
  first_tag_from (with_new_texture tag name o) tag 0 (m_loadedTextures o)
    (Texture.mk tag name).
Proof.
  intros Hroom Hno.
  split; [simpl; lia |]. split; [| split; [reflexivity |]].
  - apply with_new_texture_new_slot. exact Hroom.
  - intros j s Hj Hjs. rewrite with_new_texture_old_slot in Hjs by lia.
    apply (Hno j s); [lia | exact Hjs].
Qed.

Lemma CreateGLTexture_true_object (w w' : World) (filename tag : string) :
  registry_ok (this w) ->
  CreateGLTexture filename tag w = Done (true, w') ->
  m_loadedTextures (this w) < Z.of_nat (length (m_textureIDs (this w))) /\
  this w' = with_new_texture tag (next_name w) (this w).
Proof.
  intros Hok Hrun.
  destruct (CreateGLTexture_Done w w' filename tag true Hok Hrun) as [_ Hobj].
  exact Hobj.
Qed.

(** X1.  A fresh tag is found where it was stored: when no filled slot
    carries [tag] and the table has room, registering a decodable 3- or
    4-channel image under [tag] returns [true], after which
    [FindTextureSlot tag] is the former value of the counter and
    [FindTextureID tag] is the name [glGenTextures] stored, converted to
    [int]. *)
Theorem register_fresh_tag_then_lookups (w : World) (filename tag : string)
  (img : stbi_image) :
  registry_ok (this w) ->
  m_loadedTextures (this w) < Z.of_nat (length (m_textureIDs (this w))) ->
  disk w filename = Some img ->
  colorChannels img = 3 \/ colorChannels img = 4 ->
  no_tag_from (this w) tag 0 ->
  exists w', CreateGLTexture filename tag w = Done (true, w') /\
    m_loadedTextures (this w') = m_loadedTextures (this w) + 1 /\
    FindTextureSlot tag (this w') = Done (m_loadedTextures (this w)) /\
    FindTextureID tag (this w') = Done (GLuint_to_int (next_name w)).
Proof.
  intros Hok Hroom Hdisk Hch Hno.
  assert (Hin : 0 <= m_loadedTextures (this w)
                < Z.of_nat (length (m_textureIDs (this w))))
    by (destruct Hok; lia).
  eexists. split.
  - apply (CreateGLTexture_appends w filename tag img Hdisk Hch Hin).
  - simpl. split; [reflexivity |].
    apply (lookups_of_first_tag
             (with_new_texture tag (next_name w) (this w)) tag
             (m_loadedTextures (this w)) (Texture.mk tag (next_name w))).
    + apply with_new_texture_ok; [exact Hok | exact Hroom].
    + apply new_tag_first; [exact Hin | exact Hno].
Qed.

(** X2.  A registration leaves the lookups of every other tag as they
    were, whether it returns [true] or [false]. *)
Theorem registration_keeps_other_lookups (w w' : World)
  (filename tag tag' : string) (b : bool) :
  registry_ok (this w) ->
  CreateGLTexture filename tag w = Done (b, w') ->
  tag' <> tag ->
  FindTextureSlot tag' (this w') = FindTextureSlot tag' (this w) /\
  FindTextureID tag' (this w') = FindTextureID tag' (this w).
Proof.
  intros Hok Hrun Hne.
  destruct b.
  - destruct (CreateGLTexture_true_object w w' filename tag Hok Hrun)
      as [Hroom ->].
    assert (Hin : 0 <= m_loadedTextures (this w)
                  < Z.of_nat (length (m_textureIDs (this w))))
      by (destruct Hok; lia).
    pose proof (with_new_texture_ok (this w) tag (next_name w) Hok Hroom) as Hok'.
    destruct (lookups_cases (this w) tag' Hok)
      as [[Hno [Hs Hi]] | [k [slot [Hfirst [Hs Hi]]]]]; rewrite Hs, Hi.
    + apply lookups_of_no_tag; [exact Hok' |].
      apply no_tag_kept; assumption.
    + apply lookups_of_first_tag; [exact Hok' |].
      apply first_tag_kept. exact Hfirst.
  - destruct (CreateGLTexture_Done w w' filename tag false Hok Hrun) as [_ ->].
    auto.
Qed.

(** X3.  First match wins in the texture table too: when [tag] already
    resolves to slot [k], registering another texture under the same tag
    grows the counter but changes neither lookup: the new entry cannot be
    reached by its tag. *)
Theorem duplicate_texture_tag_is_shadowed (w w' : World)
  (filename tag : string) (k : Z) :
  registry_ok (this w) ->
  FindTextureSlot tag (this w) = Done k -> 0 <= k ->
  CreateGLTexture filename tag w = Done (true, w') ->
  m_loadedTextures (this w') = m_loadedTextures (this w) + 1 /\
  m_textureIDs (this w') !! Z.to_nat (m_loadedTextures (this w))
    = Some (Texture.mk tag (next_name w)) /\
  FindTextureSlot tag (this w') = Done k /\
  FindTextureID tag (this w') = FindTextureID tag (this w).
Proof.
  intros Hok Hfound Hk Hrun.
  destruct (CreateGLTexture_true_object w w' filename tag Hok Hrun)
    as [Hroom ->].
  assert (Hin : 0 <= m_loadedTextures (this w)
                < Z.of_nat (length (m_textureIDs (this w))))
    by (destruct Hok; lia).
  destruct (first_tag_of_slot_result (this w) tag k Hok Hfound Hk)
    as [slot Hfirst].
  destruct (lookups_of_first_tag (this w) tag k slot Hok Hfirst) as [_ Hid].
  destruct (lookups_of_first_tag
              (with_new_texture tag (next_name w) (this w)) tag k slot)
    as [Hs' Hi'].
  - apply with_new_texture_ok; assumption.
  - apply first_tag_kept. exact Hfirst.
  - split; [reflexivity |]. split; [| split].
    + apply with_new_texture_new_slot. exact Hin.
    + exact Hs'.
    + rewrite Hi', Hid. reflexivity.
Qed.

(** X4.  On a well-formed registry [FindTextureSlot] runs to its end and
    returns either -1 or the index of a filled slot that carries the tag
    and that no earlier slot with the tag precedes; it never returns the
    index of an unfilled slot. *)
Theorem FindTextureSlot_result_range (o : SceneManager) (tag : string) :
  registry_ok o ->
  exists r, FindTextureSlot tag o = Done r /\
    ((r = -1 /\ no_tag_from o tag 0) \/
     (exists slot, first_tag_from o tag 0 r slot)).
Proof.
  intros Hok.
  destruct (lookups_cases o tag Hok)
    as [[Hno [Hs _]] | [k [slot [Hfirst [Hs _]]]]].
  - exists (-1). split; [exact Hs |]. left. auto.
  - exists k. split; [exact Hs |]. right. exists slot. exact Hfirst.
Qed.

(** ** Binding *)

Lemma world_eta (w : World) :
  mk_world (this w) (trace w) (disk w) (gl_names w) (gl_generated w) = w.
Proof. destruct w. reflexivity. Qed.

Lemma with_events_nil (w : World) : with_events [] w = w.
Proof. unfold with_events. rewrite app_nil_r. apply world_eta. Qed.

Lemma with_events_app (evs1 evs2 : list event) (w : World) :
  with_events evs2 (with_events evs1 w) = with_events (evs1 ++ evs2) w.
Proof. unfold with_events. simpl. rewrite app_assoc. reflexivity. Qed.

Lemma BindGLTextures_body_step (w : World) (i : Z) (slot : TEXTURE_INFO) :
  0 <= i ->
  m_textureIDs (this w) !! Z.to_nat i = Some slot ->
  BindGLTextures_body i w
  = Done (tt, with_events [glActiveTexture i;
                           glBindTexture GL_TEXTURE_2D (Texture.ID slot)] w).
Proof.
  intros Hi Hlook.
  unfold BindGLTextures_body, bind, emit, get_this, lift, slot_at, with_events.
  simpl. destruct (Z.ltb_spec i 0) as [Hneg | _]; [lia |].
  rewrite Hlook. simpl. rewrite <- app_assoc. reflexivity.
Qed.

Lemma below_loadedTextures_eq (i : Z) (w : World) :
  below_loadedTextures i w = Done (i <? m_loadedTextures (this w), w).
Proof. reflexivity. Qed.

Lemma for_loop_exit (budget : nat) (cond : Z -> M bool) (body : Z -> M unit)
  (i : Z) (w : World) :
  cond i w = Done (false, w) ->
  for_loop budget cond body i w = Done (tt, w).
Proof.
  intros Hc. destruct budget; simpl; unfold bind; rewrite Hc; reflexivity.
Qed.

Lemma for_loop_step (budget : nat) (cond : Z -> M bool) (body : Z -> M unit)
  (i : Z) (w w1 : World) :
  cond i w = Done (true, w) ->
  body i w = Done (tt, w1) ->
  for_loop (S budget) cond body i w = for_loop budget cond body (i + 1) w1.
Proof.
  intros Hc Hb. simpl. unfold bind at 1. rewrite Hc.
  unfold bind at 1. rewrite Hb. reflexivity.
Qed.

(** The loop of [BindGLTextures] from unit [i] on. *)
Lemma BindGLTextures_loop (budget : nat) :
  forall (i : Z) (w : World),
    0 <= i ->
    m_loadedTextures (this w) - i <= Z.of_nat budget ->
    m_loadedTextures (this w) <= Z.of_nat (length (m_textureIDs (this w))) ->
    for_loop budget below_loadedTextures BindGLTextures_body i w
    = Done (tt, with_events
                  (bind_events i (drop (Z.to_nat i) (filled_slots (this w)))) w).
Proof.
  induction budget as [| budget IH]; intros i w Hi Hbud Hlen.
  - rewrite for_loop_exit.
    + unfold filled_slots. rewrite drop_ge by (rewrite length_take; lia).
      simpl. rewrite with_events_nil. reflexivity.
    + rewrite below_loadedTextures_eq.
      destruct (Z.ltb_spec i (m_loadedTextures (this w))); [lia | reflexivity].
  - destruct (Z.ltb_spec i (m_loadedTextures (this w))) as [Hlt | Hge].
    + destruct (slot_at_in_bounds (this w) i) as [slot [Hlook _]]; [lia |].
      rewrite (for_loop_step budget _ _ i w _
                 ltac:(rewrite below_loadedTextures_eq;
                       destruct (Z.ltb_spec i (m_loadedTextures (this w)));
                       [reflexivity | lia])
                 (BindGLTextures_body_step w i slot Hi Hlook)).
      rewrite IH by (simpl; lia). simpl.
      rewrite with_events_app.
      assert (Hdrop : drop (Z.to_nat i) (filled_slots (this w))
                      = slot :: drop (Z.to_nat (i + 1)) (filled_slots (this w))).
      { replace (Z.to_nat (i + 1)) with (S (Z.to_nat i)) by lia.
        apply drop_S. unfold filled_slots.
        rewrite lookup_take_lt by lia. exact Hlook. }
      rewrite Hdrop. reflexivity.
    + rewrite for_loop_exit.
      * unfold filled_slots. rewrite drop_ge by (rewrite length_take; lia).
        simpl. rewrite with_events_nil. reflexivity.
      * rewrite below_loadedTextures_eq.
        destruct (Z.ltb_spec i (m_loadedTextures (this w))); [lia | reflexivity].
Qed.

Lemma BindGLTextures_run (w : World) :
  registry_ok (this w) ->
  BindGLTextures w
  = Done (tt, with_events (bind_events 0 (filled_slots (this w))) w).
Proof.
  intros [Hlo Hhi]. unfold BindGLTextures, bind, get_this.
  rewrite BindGLTextures_loop by lia. reflexivity.
Qed.

Lemma bind_events_lookup (slots : list TEXTURE_INFO) :
  forall (first_unit : Z) (k : nat) (slot : TEXTURE_INFO),
    slots !! k = Some slot ->
    bind_events first_unit slots !! (2 * k)%nat
      = Some (glActiveTexture (first_unit + Z.of_nat k)) /\
    bind_events first_unit slots !! (2 * k + 1)%nat
      = Some (glBindTexture GL_TEXTURE_2D (Texture.ID slot)).
Proof.
  induction slots as [| s rest IH]; intros first_unit k slot Hlook.
  - discriminate.
  - destruct k as [| k].
    + simpl in Hlook. inversion Hlook; subst. simpl.
      rewrite Z.add_0_r. auto.
    + simpl in Hlook. destruct (IH (first_unit + 1) k slot Hlook) as [Ha Hb].
      replace (2 * S k)%nat with (S (S (2 * k))) by lia.
      replace (S (S (2 * k)) + 1)%nat with (S (S (2 * k + 1))) by lia.
      simpl bind_events. simpl lookup.
      replace (first_unit + Z.of_nat (S k)) with (first_unit + 1 + Z.of_nat k)
        by lia.
      auto.
Qed.

(** X5.  On a well-formed registry [BindGLTextures] runs to its end,
    leaves the object as it was, and issues calls for the filled slots
    only: for filled slot [k], in ascending order of [k],
    [glActiveTexture k] followed by [glBindTexture] of the handle in that
    slot (two calls per filled slot). *)
Theorem BindGLTextures_binds_filled_slots (w : World) :
  registry_ok (this w) ->
  exists w', BindGLTextures w = Done (tt, w') /\
    this w' = this w /\
    trace w' = (trace w ++ bind_events 0 (filled_slots (this w)))%list /\
    length (bind_events 0 (filled_slots (this w)))
      = (2 * Z.to_nat (m_loadedTextures (this w)))%nat /\
    forall (k : nat) (slot : TEXTURE_INFO),
      (k < Z.to_nat (m_loadedTextures (this w)))%nat ->
      m_textureIDs (this w) !! k = Some slot ->
      bind_events 0 (filled_slots (this w)) !! (2 * k)%nat
        = Some (glActiveTexture (Z.of_nat k)) /\
      bind_events 0 (filled_slots (this w)) !! (2 * k + 1)%nat
        = Some (glBindTexture GL_TEXTURE_2D (Texture.ID slot)).
Proof.
  intros Hok. eexists. split; [apply BindGLTextures_run; exact Hok |].
  split; [reflexivity |]. split; [reflexivity |]. split.
  - assert (Hlen : forall slots u,
               length (bind_events u slots) = (2 * length slots)%nat).
    { induction slots as [| s rest IH]; intros u; [reflexivity |].
      simpl. rewrite IH. lia. }
    rewrite Hlen. unfold filled_slots. rewrite length_take.
    destruct Hok. lia.
  - intros k slot Hk Hlook.
    destruct (bind_events_lookup (filled_slots (this w)) 0 k slot) as [Ha Hb].
    + unfold filled_slots. rewrite lookup_take_lt by lia. exact Hlook.
    + rewrite Z.add_0_l in Ha. auto.
Qed.

(** X6.  The sampler index agrees with the binding: when [tag] resolves
    to slot [k], [SetShaderTexture tag] (with a shader manager) writes
    [bUseTexture := 1] and [objectTexture := k], and [k] is the texture
    unit to which [BindGLTextures] binds the handle that [FindTextureID]
    reports for [tag]. *)
Theorem sampler_index_is_bound_unit (w : World) (tag : string) (k : Z) :
  registry_ok (this w) ->
  m_pShaderManager (this w) <> NULL ->
  FindTextureSlot tag (this w) = Done k -> 0 <= k ->
  exists slot,
    SetShaderTexture tag w
    = Done (tt, with_events
                  [setIntValue (m_pShaderManager (this w)) "bUseTexture" 1;
                   setSampler2DValue (m_pShaderManager (this w))
                     "objectTexture" k] w) /\
    FindTextureID tag (this w) = Done (GLuint_to_int (Texture.ID slot)) /\
    bind_events 0 (filled_slots (this w)) !! (2 * Z.to_nat k)%nat
      = Some (glActiveTexture k) /\
    bind_events 0 (filled_slots (this w)) !! (2 * Z.to_nat k + 1)%nat
      = Some (glBindTexture GL_TEXTURE_2D (Texture.ID slot)).
Proof.
  intros Hok Hptr Hfound Hk.
  destruct (first_tag_of_slot_result (this w) tag k Hok Hfound Hk)
    as [slot Hfirst].
  destruct (lookups_of_first_tag (this w) tag k slot Hok Hfirst) as [_ Hid].
  destruct Hfirst as [Hrange [Hlook _]].
  exists slot. split; [| split; [exact Hid |]].
  - unfold SetShaderTexture, bind, get_this, emit, lift, with_events.
    destruct (Z.eqb_spec (m_pShaderManager (this w)) NULL) as [E | _];
      [contradiction |].
    simpl. rewrite Hfound. simpl. rewrite <- app_assoc. reflexivity.
  - destruct (bind_events_lookup (filled_slots (this w)) 0 (Z.to_nat k) slot)
      as [Ha Hb].
    + unfold filled_slots. rewrite lookup_take_lt by lia. exact Hlook.
    + rewrite Z2Nat.id in Ha by lia. simpl in Ha. auto.
Qed.

(** X7.  A tag that no filled slot carries is not an error for
    [SetShaderTexture]: it writes [bUseTexture := 1] and passes the
    sentinel -1 on as the sampler index. *)
Theorem SetShaderTexture_unknown_tag (w : World) (tag : string) :
  registry_ok (this w) ->
  m_pShaderManager (this w) <> NULL ->
  no_tag_from (this w) tag 0 ->
  SetShaderTexture tag w
  = Done (tt, with_events
                [setIntValue (m_pShaderManager (this w)) "bUseTexture" 1;
                 setSampler2DValue (m_pShaderManager (this w))
                   "objectTexture" (-1)] w).
Proof.
  intros Hok Hptr Hno.
  destruct (lookups_of_no_tag (this w) tag Hok Hno) as [Hslot _].
  unfold SetShaderTexture, bind, get_this, emit, lift, with_events.
  destruct (Z.eqb_spec (m_pShaderManager (this w)) NULL) as [E | _];
    [contradiction |].
  simpl. rewrite Hslot. simpl. rewrite <- app_assoc. reflexivity.
Qed.

(** ** Teardown, continued *)

(** The loop of [DestroyGLTextures] from index [i] on, with what it does
    to the table and to the backend's name supply. *)
Lemma DestroyGLTextures_loop_state (budget : nat) :
  forall (i : Z) (w : World),
    0 <= i ->
    m_loadedTextures (this w) - i <= Z.of_nat budget ->
    m_loadedTextures (this w) <= Z.of_nat (length (m_textureIDs (this w))) ->
    exists w' : World,
      for_loop budget below_loadedTextures DestroyGLTextures_body i w
        = Done (tt, w') /\
      m_loadedTextures (this w') = m_loadedTextures (this w) /\
      m_pShaderManager (this w') = m_pShaderManager (this w) /\
      m_objectMaterials (this w') = m_objectMaterials (this w) /\
      length (m_textureIDs (this w')) = length (m_textureIDs (this w)) /\
      (forall (j : nat) (slot : TEXTURE_INFO),
         m_textureIDs (this w) !! j = Some slot ->
         m_textureIDs (this w') !! j
         = Some (if (Z.to_nat i <=? j)%nat
                    && (j <? Z.to_nat (m_loadedTextures (this w)))%nat
                 then Texture.mk (Texture.tag slot)
                        (to_GLuint (gl_names w
                                      (gl_generated w + (j - Z.to_nat i))%nat))
                 else slot)).
Proof.
  induction budget as [| budget IH]; intros i w Hi Hbud Hlen.
  - exists w. rewrite for_loop_exit.
    + repeat split; auto. intros j slot Hj.
      destruct (Nat.leb_spec (Z.to_nat i) j); simpl; [| exact Hj].
      destruct (Nat.ltb_spec j (Z.to_nat (m_loadedTextures (this w))));
        [lia | exact Hj].
    + rewrite below_loadedTextures_eq.
      destruct (Z.ltb_spec i (m_loadedTextures (this w))); [lia | reflexivity].
  - destruct (Z.ltb_spec i (m_loadedTextures (this w))) as [Hlt | Hge].
    + destruct (slot_at_in_bounds (this w) i) as [slot [Hlook _]]; [lia |].
      rewrite (for_loop_step budget _ _ i w _
                 ltac:(rewrite below_loadedTextures_eq;
                       destruct (Z.ltb_spec i (m_loadedTextures (this w)));
                       [reflexivity | lia])
                 (DestroyGLTextures_body_step w i slot Hi Hlook)).
      match goal with
      | |- context [for_loop budget _ _ (i + 1) ?w1] =>
        destruct (IH (i + 1) w1)
          as [w' [Hrun [Hcount [Hptr [Hmats [Hlen' Htable]]]]]]
      end; simpl; try rewrite length_insert; try lia.
      simpl in Hcount, Hptr, Hmats, Hlen', Htable.
      rewrite length_insert in Hlen'.
      exists w'. repeat split; auto.
      intros j s Hj.
      destruct (Nat.eq_dec j (Z.to_nat i)) as [-> | Hne].
      * rewrite Hlook in Hj. inversion Hj; subst s.
        rewrite (Htable (Z.to_nat i)
                   (Texture.mk (Texture.tag slot) (next_name w)))
          by (apply list_lookup_insert_eq; lia).
        destruct (Nat.leb_spec (Z.to_nat (i + 1)) (Z.to_nat i)); [lia |].
        destruct (Nat.leb_spec (Z.to_nat i) (Z.to_nat i)); [| lia].
        destruct (Nat.ltb_spec (Z.to_nat i)
                    (Z.to_nat (m_loadedTextures (this w)))); [| lia].
        simpl. unfold next_name. do 4 f_equal. lia.
      * rewrite (Htable j s)
          by (rewrite list_lookup_insert_ne by lia; exact Hj).
        destruct (Nat.leb_spec (Z.to_nat (i + 1)) j);
          destruct (Nat.leb_spec (Z.to_nat i) j); try lia; simpl;
          [| reflexivity].
        destruct (Nat.ltb_spec j (Z.to_nat (m_loadedTextures (this w))));
          [| reflexivity].
        do 4 f_equal. lia.
    + exists w. rewrite for_loop_exit.
      * repeat split; auto. intros j slot Hj.
        destruct (Nat.leb_spec (Z.to_nat i) j); simpl; [| exact Hj].
        destruct (Nat.ltb_spec j (Z.to_nat (m_loadedTextures (this w))));
          [lia | exact Hj].
      * rewrite below_loadedTextures_eq.
        destruct (Z.ltb_spec i (m_loadedTextures (this w))); [lia | reflexivity].
Qed.

(** X8.  [DestroyGLTextures] keeps the counter and every tag, and puts
    into filled slot [j] the name the backend generates at its [j]-th
    call from now; unfilled slots keep their contents.  So every tag still
    resolves to the slot it resolved to, while the handles registered
    before are no longer in the table. *)
Theorem DestroyGLTextures_keeps_tags_replaces_handles (w : World) :
  registry_ok (this w) ->
  exists w' : World,
    DestroyGLTextures w = Done (tt, w') /\
    m_loadedTextures (this w') = m_loadedTextures (this w) /\
    (forall (j : nat) (slot : TEXTURE_INFO),
       m_textureIDs (this w) !! j = Some slot ->
       m_textureIDs (this w') !! j
       = Some (if (j <? Z.to_nat (m_loadedTextures (this w)))%nat
               then Texture.mk (Texture.tag slot)
                      (to_GLuint (gl_names w (gl_generated w + j)%nat))
               else slot)) /\
    (forall tag, FindTextureSlot tag (this w') = FindTextureSlot tag (this w)).
Proof.
  intros Hok. pose proof Hok as [Hlo Hhi].
  unfold DestroyGLTextures, bind, get_this.
  destruct (DestroyGLTextures_loop_state (Z.to_nat (m_loadedTextures (this w)))
              0 w) as [w' [Hrun [Hcount [_ [_ [Hlen Htable]]]]]]; try lia.
  exists w'. split; [exact Hrun |]. split; [exact Hcount |].
  assert (Hslots : forall (j : nat) (slot : TEXTURE_INFO),
             m_textureIDs (this w) !! j = Some slot ->
             m_textureIDs (this w') !! j
             = Some (if (j <? Z.to_nat (m_loadedTextures (this w)))%nat
                     then Texture.mk (Texture.tag slot)
                            (to_GLuint (gl_names w (gl_generated w + j)%nat))
                     else slot)).
  { intros j slot Hj. rewrite (Htable j slot Hj).
    change (Z.to_nat 0) with 0%nat. rewrite Nat.sub_0_r. reflexivity. }
  split; [exact Hslots |].
  assert (Hok' : registry_ok (this w'))
    by (unfold registry_ok; rewrite Hcount, Hlen; lia).
  assert (Htags : forall (j : Z) (s' : TEXTURE_INFO),
             0 <= j ->
             m_textureIDs (this w') !! Z.to_nat j = Some s' ->
             exists s, m_textureIDs (this w) !! Z.to_nat j = Some s /\
                       Texture.tag s' = Texture.tag s).
  { intros j s' Hj Hlook'.
    destruct (lookup_lt_is_Some_2 (m_textureIDs (this w)) (Z.to_nat j))
      as [s Hs].
    - rewrite <- Hlen. apply lookup_lt_Some in Hlook'. exact Hlook'.
    - exists s. split; [exact Hs |].
      rewrite (Hslots _ s Hs) in Hlook'. inversion Hlook'.
      destruct (Z.to_nat j <? Z.to_nat (m_loadedTextures (this w)))%nat;
        reflexivity. }
  intros tag.
  destruct (lookups_cases (this w) tag Hok)
    as [[Hno [Hs _]] | [k [slot [[Hk [Hlook [Htag Hbefore]]] [Hs _]]]]];
    rewrite Hs.
  - apply lookups_of_no_tag; [exact Hok' |].
    intros j s' Hj Hlook'. rewrite Hcount in Hj.
    destruct (Htags j s' ltac:(lia) Hlook') as [s [Hsj ->]].
    exact (Hno j s Hj Hsj).
  - eapply lookups_of_first_tag; [exact Hok' |].
    split; [rewrite Hcount; exact Hk |]. split; [| split].
    + apply (Hslots _ slot Hlook).
    + destruct (Z.to_nat k <? Z.to_nat (m_loadedTextures (this w)))%nat;
        exact Htag.
    + intros j s' Hj Hlook'.
      destruct (Htags j s' ltac:(lia) Hlook') as [s [Hsj ->]].
      exact (Hbefore j s Hj Hsj).
Qed.

(** ** Sequences of registrations *)

Lemma loadable_true (w : World) (filename : string) :
  loadable w filename = true ->
  exists img, disk w filename = Some img /\
              (colorChannels img = 3 \/ colorChannels img = 4).
Proof.
  unfold loadable. destruct (disk w filename) as [img |]; [| discriminate].
  intros H. exists img. split; [reflexivity |].
  apply orb_true_iff in H. destruct H as [H | H]; apply Z.eqb_eq in H; auto.
Qed.

Lemma not_loadable_unchanged (w : World) (filename tag : string) :
  loadable w filename = false ->
  exists w', CreateGLTexture filename tag w = Done (false, w') /\
             this w' = this w /\ disk w' = disk w.
Proof.
  unfold loadable. destruct (disk w filename) as [img |] eqn:Hdisk.
  - intros H. apply orb_false_iff in H. destruct H as [H3 H4].
    apply Z.eqb_neq in H3. apply Z.eqb_neq in H4.
    eexists. split.
    + apply (CreateGLTexture_refuses w filename tag img Hdisk H3 H4).
    + auto.
  - intros _. eexists. split.
    + apply (CreateGLTexture_not_loaded w filename tag Hdisk).
    + auto.
Qed.

Lemma loadable_same_disk (w w' : World) (filename : string) :
  disk w' = disk w -> loadable w' filename = loadable w filename.
Proof. unfold loadable. intros ->. reflexivity. Qed.

Lemma count_loadable_same_disk (w w' : World) (calls : list (string * string)) :
  disk w' = disk w -> count_loadable w' calls = count_loadable w calls.
Proof.
  intros Hd. unfold count_loadable. f_equal. f_equal.
  induction calls as [| c rest IH]; [reflexivity |].
  rewrite !filter_cons, (loadable_same_disk w w' _ Hd), IH. reflexivity.
Qed.

Lemma count_loadable_cons (w : World) (c : string * string)
  (rest : list (string * string)) :
  count_loadable w (c :: rest)
  = (if loadable w (fst c) then 1 else 0) + count_loadable w rest.
Proof.
  unfold count_loadable. rewrite filter_cons.
  destruct (loadable w (fst c)); simpl length; lia.
Qed.

Lemma bind_eq {A B : Type} (m : M A) (k : A -> M B) (w w1 : World) (a : A) :
  m w = Done (a, w1) -> bind m k w = k a w1.
Proof. intros H. unfold bind. rewrite H. reflexivity. Qed.

Lemma bind_fault {A B : Type} (m : M A) (k : A -> M B) (w : World) (e : fault) :
  m w = Fault e -> bind m k w = Fault e.
Proof. intros H. unfold bind. rewrite H. reflexivity. Qed.

(** A sequence of registrations runs to its end exactly when the
    loadable files among it fit into the free slots. *)
Lemma CreateGLTexture_each_capacity (calls : list (string * string)) :
  forall w : World,
    registry_ok (this w) ->
    (m_loadedTextures (this w) + count_loadable w calls
       <= Z.of_nat (length (m_textureIDs (this w))) ->
     exists w', CreateGLTexture_each calls w = Done (tt, w') /\
       registry_ok (this w') /\
       length (m_textureIDs (this w')) = length (m_textureIDs (this w)) /\
       m_loadedTextures (this w')
       = m_loadedTextures (this w) + count_loadable w calls) /\
    (Z.of_nat (length (m_textureIDs (this w)))
       < m_loadedTextures (this w) + count_loadable w calls ->
     CreateGLTexture_each calls w
     = Fault (OutOfBounds (Z.of_nat (length (m_textureIDs (this w)))))).
Proof.
  induction calls as [| [filename tag] rest IH]; intros w Hok.
  - unfold count_loadable. simpl. split.
    + intros _. exists w. repeat split; auto; try apply Hok. lia.
    + intros H. destruct Hok. lia.
  - rewrite count_loadable_cons. simpl fst.
    destruct (loadable w filename) eqn:Hload.
    + destruct (loadable_true w filename Hload) as [img [Hdisk Hch]].
      destruct (Z.lt_ge_cases (m_loadedTextures (this w))
                  (Z.of_nat (length (m_textureIDs (this w))))) as [Hroom | Hfull].
      * pose proof (CreateGLTexture_appends w filename tag img Hdisk Hch
                      ltac:(destruct Hok; lia)) as Hrun.
        match type of Hrun with
        | _ = Done (true, ?w1) =>
          assert (Hok1 : registry_ok (this w1))
            by (unfold registry_ok; simpl; rewrite length_insert;
                destruct Hok; lia);
          destruct (IH w1 Hok1) as [IHfit IHover];
          assert (Hc : count_loadable w1 rest = count_loadable w rest)
            by (apply count_loadable_same_disk; reflexivity);
          rewrite Hc in IHfit, IHover;
          simpl in IHfit, IHover; rewrite length_insert in IHfit, IHover
        end.
        change (CreateGLTexture_each ((filename, tag) :: rest) w)
          with (bind (CreateGLTexture filename tag)
                  (fun _ => CreateGLTexture_each rest) w).
        rewrite (bind_eq _ _ _ _ _ Hrun).
        split.
        -- intros Hfit. destruct IHfit as [w' [Hr [Hk [Hl Hn]]]]; [lia |].
           exists w'. repeat split; auto; try apply Hk; try lia.
        -- intros Hover. apply IHover. lia.
      * split; [intros Hfit; unfold count_loadable in Hfit; lia |].
        intros _.
        change (CreateGLTexture_each ((filename, tag) :: rest) w)
          with (bind (CreateGLTexture filename tag)
                  (fun _ => CreateGLTexture_each rest) w).
        rewrite (bind_fault _ _ _ _
                   (CreateGLTexture_no_room w filename tag img Hdisk Hch Hfull)).
        destruct Hok. f_equal. f_equal. lia.
    + destruct (not_loadable_unchanged w filename tag Hload)
        as [w1 [Hrun [Hobj Hd]]].
      change (CreateGLTexture_each ((filename, tag) :: rest) w)
        with (bind (CreateGLTexture filename tag)
                (fun _ => CreateGLTexture_each rest) w).
      rewrite (bind_eq _ _ _ _ _ Hrun).
      assert (Hok1 : registry_ok (this w1)) by (rewrite Hobj; exact Hok).
      destruct (IH w1 Hok1) as [IHfit IHover].
      rewrite (count_loadable_same_disk w w1 rest Hd) in IHfit, IHover.
      rewrite Hobj in IHfit, IHover.
      split.
      * intros Hfit. destruct IHfit as [w' [Hr [Hk [Hl Hn]]]]; [lia |].
        exists w'. repeat split; auto; try apply Hk; try lia.
      * intros Hover. apply IHover. lia.
Qed.

Lemma count_loadable_bounds (w : World) (calls : list (string * string)) :
  0 <= count_loadable w calls <= Z.of_nat (length calls).
Proof.
  unfold count_loadable. split; [lia |].
  apply inj_le. apply length_filter.
Qed.

(** X9.  On a freshly constructed scene [LoadSceneTextures] runs to its
    end exactly when at least one of its seventeen files fails to load as
    a 3- or 4-channel image, and then the counter is the number of files
    that loaded; when all seventeen load it stops at the store into
    [m_textureIDs[16]]. *)
Theorem LoadSceneTextures_after_constructor (pShaderManager : pointer)
  (w0 : World) :
  (count_loadable w0 scene_textures < 17 ->
   exists w', bind (construct pShaderManager) (fun _ => LoadSceneTextures) w0
                = Done (tt, w') /\
              m_loadedTextures (this w') = count_loadable w0 scene_textures) /\
  (count_loadable w0 scene_textures = 17 ->
   bind (construct pShaderManager) (fun _ => LoadSceneTextures) w0
   = Fault (OutOfBounds 16)).
Proof.
  rewrite (bind_eq _ _ _ _ _ (construct_result pShaderManager w0)).
  match goal with
  | |- context [LoadSceneTextures ?w1] =>
    assert (Hok1 : registry_ok (this w1)) by (unfold registry_ok; simpl; lia);
    destruct (CreateGLTexture_each_capacity scene_textures w1 Hok1)
      as [Hfit Hover];
    assert (Hc : count_loadable w1 scene_textures
                 = count_loadable w0 scene_textures)
      by (apply count_loadable_same_disk; reflexivity);
    rewrite Hc in Hfit, Hover
  end.
  cbn [this set_object m_textureIDs m_loadedTextures] in Hfit, Hover.
  rewrite length_replicate in Hfit, Hover.
  unfold texture_capacity in Hfit, Hover. unfold LoadSceneTextures.
  split.
  - intros Hless. destruct Hfit as [w' [Hrun [Hok' [_ Hn]]]]; [lia |].
    rewrite (bind_eq _ _ _ _ _ Hrun).
    rewrite (BindGLTextures_run w' Hok').
    eexists. split; [reflexivity |]. simpl. lia.
  - intros Hall. rewrite (bind_fault _ _ _ _ (Hover ltac:(lia))).
    reflexivity.
Qed.

(** ** Seventeen tags, sixteen slots *)

Lemma scene_texture_tags_distinct : List.NoDup (map snd scene_textures).
Proof.
  unfold scene_textures. simpl.
  repeat (constructor; [simpl; intuition discriminate |]).
  constructor.
Qed.

Lemma more_tags_than_slots (tags filled : list string) :
  List.NoDup tags ->
  (length filled < length tags)%nat ->
  exists t, In t tags /\ ~ In t filled.
Proof.
  intros Hnd Hlen.
  destruct (List.Forall_Exists_dec (fun t => In t filled)
              (fun t => in_dec string_dec t filled) tags) as [Hall | Hex].
  - exfalso. rewrite List.Forall_forall in Hall.
    pose proof (List.NoDup_incl_length Hnd Hall). lia.
  - apply List.Exists_exists in Hex. exact Hex.
Qed.

Lemma no_tag_of_unfilled (o : SceneManager) (tag : string) :
  ~ In tag (map Texture.tag (filled_slots o)) -> no_tag_from o tag 0.
Proof.
  intros Hnot j slot Hj Hlook Htag. apply Hnot.
  apply in_map_iff. exists slot. split; [exact Htag |].
  apply list_elem_of_In. apply (list_elem_of_lookup_2 _ (Z.to_nat j)).
  unfold filled_slots. rewrite lookup_take_lt by lia. exact Hlook.
Qed.

(** X10.  The table cannot hold the scene: whatever well-formed state the
    sixteen-slot table is in, at least one of the seventeen tags that
    [LoadSceneTextures] registers resolves to -1. *)
Theorem some_scene_texture_is_missing (o : SceneManager) :
  registry_ok o ->
  length (m_textureIDs o) = texture_capacity ->
  exists filename tag,
    In (filename, tag) scene_textures /\ FindTextureSlot tag o = Done (-1).
Proof.
  intros Hok Hcap.
  destruct (more_tags_than_slots (map snd scene_textures)
              (map Texture.tag (filled_slots o)) scene_texture_tags_distinct)
    as [tag [Hin Hnot]].
  - rewrite !length_map. unfold filled_slots. rewrite length_take, Hcap.
    unfold texture_capacity, scene_textures. simpl. lia.
  - apply in_map_iff in Hin. destruct Hin as [[filename tag'] [Heq Hin]].
    simpl in Heq. subst tag'.
    exists filename, tag. split; [exact Hin |].
    apply (lookups_of_no_tag o tag Hok).
    apply no_tag_of_unfilled. exact Hnot.
Qed.

(** ** The material list, continued *)

Lemma find_none_of_lookups (l : list OBJECT_MATERIAL) (t : string) :
  (forall (j : nat) e, l !! j = Some e -> tag e <> t) ->
  List.find (has_tag t) l = None.
Proof.
  induction l as [| x rest IH]; intros Hno; [reflexivity |].
  simpl. unfold has_tag at 1.
  destruct (String.eqb_spec (tag x) t) as [Heq | Hne].
  - exfalso. exact (Hno 0%nat x eq_refl Heq).
  - apply IH. intros j e Hj. exact (Hno (S j) e Hj).
Qed.

Lemma find_some_of_lookups (l : list OBJECT_MATERIAL) (t : string) :
  forall (k : nat) (e : OBJECT_MATERIAL),
    l !! k = Some e -> tag e = t ->
    (forall (j : nat) e', (j < k)%nat -> l !! j = Some e' -> tag e' <> t) ->
    List.find (has_tag t) l = Some e.
Proof.
  induction l as [| x rest IH]; intros k e Hk Htag Hbefore; [discriminate |].
  simpl. unfold has_tag at 1.
  destruct (String.eqb_spec (tag x) t) as [Heq | Hne].
  - destruct k as [| k].
    + simpl in Hk. congruence.
    + exfalso. exact (Hbefore 0%nat x ltac:(lia) eq_refl Heq).
  - destruct k as [| k].
    + simpl in Hk. inversion Hk; subst. contradiction.
    + apply (IH k e Hk Htag). intros j e' Hj Hje.
      exact (Hbefore (S j) e' ltac:(lia) Hje).
Qed.

(** [FindMaterial] as a function of the list: the flag tells whether the
    list is non-empty, the record takes the fields of the first entry
    with the tag, if there is one. *)
Lemma FindMaterial_as_find (o : SceneManager) (t : string)
  (material : OBJECT_MATERIAL) :
  FindMaterial t material o
  = Done (match m_objectMaterials o with [] => false | _ :: _ => true end,
          match List.find (has_tag t) (m_objectMaterials o) with
          | Some e => assign_fields e material
          | None => material
          end).
Proof.
  unfold FindMaterial.
  destruct (m_objectMaterials o) as [| first rest] eqn:Hlist; [reflexivity |].
  destruct (Z.eqb_spec (Z.of_nat (length (first :: rest))) 0) as [E | _];
    [simpl in E; lia |].
  rewrite <- Hlist.
  destruct (FindMaterial_while_scan o t material
              (length (m_objectMaterials o)) 0)
    as [[Hno Hrun] | [k [e [Hk [Hke [Hte [Hbefore Hrun]]]]]]]; try lia;
    rewrite Hrun; simpl.
  - rewrite find_none_of_lookups; [reflexivity |].
    intros j e Hj. apply (Hno (Z.of_nat j) e); [lia |].
    rewrite Nat2Z.id. exact Hj.
  - rewrite (find_some_of_lookups _ t (Z.to_nat k) e Hke Hte); [reflexivity |].
    intros j e' Hj Hje. apply (Hbefore (Z.of_nat j) e'); [lia |].
    rewrite Nat2Z.id. exact Hje.
Qed.

Lemma find_app_miss (l : list OBJECT_MATERIAL) (m : OBJECT_MATERIAL) (t : string) :
  tag m <> t ->
  List.find (has_tag t) (l ++ [m]) = List.find (has_tag t) l.
Proof.
  intros Hne. induction l as [| x rest IH]; simpl.
  - unfold has_tag. destruct (String.eqb_spec (tag m) t); [contradiction |].
    reflexivity.
  - destruct (has_tag t x); [reflexivity | exact IH].
Qed.

Lemma find_app_fresh (l : list OBJECT_MATERIAL) (m : OBJECT_MATERIAL) :
  Forall (fun e => tag e <> tag m) l ->
  List.find (has_tag (tag m)) (l ++ [m]) = Some m.
Proof.
  induction 1 as [| x rest Hx _ IH]; simpl.
  - unfold has_tag. rewrite String.eqb_refl. reflexivity.
  - unfold has_tag at 1.
    destruct (String.eqb_spec (tag x) (tag m)); [contradiction | exact IH].
Qed.

Lemma push_back_material_run (w : World) (m : OBJECT_MATERIAL) :
  push_back_material m w
  = Done (tt, set_object
                (with_objectMaterials (m_objectMaterials (this w) ++ [m])
                   (this w)) w).
Proof. reflexivity. Qed.

(** X11.  A material pushed under a tag that no earlier entry carries is
    found again: [FindMaterial] for its tag returns [true] and the five
    reflectance fields of that material, while the tag field of the
    caller's record stays the caller's. *)
Theorem push_back_then_FindMaterial (w : World) (m out : OBJECT_MATERIAL) :
  Forall (fun e => tag e <> tag m) (m_objectMaterials (this w)) ->
  exists w', push_back_material m w = Done (tt, w') /\
    FindMaterial (tag m) out (this w')
    = Done (true, mk_material (ambientColor m) (ambientStrength m)
                    (diffuseColor m) (specularColor m) (shininess m)
                    (tag out)).
Proof.
  intros Hfresh. eexists. split; [apply push_back_material_run |].
  rewrite FindMaterial_as_find. simpl.
  rewrite (find_app_fresh _ m Hfresh).
  destruct (m_objectMaterials (this w)); reflexivity.
Qed.

(** X12.  Pushing a material does not change the record [FindMaterial]
    returns for any other tag, but the flag it returns afterwards is
    [true] whatever it was before: on a list that was empty the lookup
    of an absent tag turns from not found to found. *)
Theorem push_back_other_tag (w : World) (m out : OBJECT_MATERIAL) (t : string)
  (b : bool) (r : OBJECT_MATERIAL) :
  tag m <> t ->
  FindMaterial t out (this w) = Done (b, r) ->
  exists w', push_back_material m w = Done (tt, w') /\
    FindMaterial t out (this w') = Done (true, r) /\
    (m_objectMaterials (this w) = [] -> b = false /\ r = out).
Proof.
  intros Hne Hbefore. eexists. split; [apply push_back_material_run |].
  rewrite FindMaterial_as_find in Hbefore. inversion Hbefore as [[Hb Hr]].
  rewrite FindMaterial_as_find. simpl.
  rewrite (find_app_miss _ m t Hne). split.
  - destruct (m_objectMaterials (this w)); reflexivity.
  - intros Hempty. rewrite Hempty. auto.
Qed.

(** ** [SetShaderMaterial] *)

Lemma through_pShaderManager_run (w : World) (call : pointer -> event) :
  m_pShaderManager (this w) <> NULL ->
  through_pShaderManager call w
  = Done (tt, with_events [call (m_pShaderManager (this w))] w).
Proof.
  intros Hptr. unfold through_pShaderManager, bind, get_this, emit.
  destruct (Z.eqb_spec (m_pShaderManager (this w)) NULL) as [E | _];
    [contradiction | reflexivity].
Qed.

Lemma through_pShaderManager_then {B : Type} (w : World)
  (call : pointer -> event) (k : unit -> M B) :
  m_pShaderManager (this w) <> NULL ->
  bind (through_pShaderManager call) k w
  = k tt (with_events [call (m_pShaderManager (this w))] w).
Proof.
  intros Hptr. apply bind_eq. apply through_pShaderManager_run. exact Hptr.
Qed.

Lemma SetShaderMaterial_run (w : World) (t : string) (out : OBJECT_MATERIAL) :
  m_objectMaterials (this w) <> [] ->
  m_pShaderManager (this w) <> NULL ->
  SetShaderMaterial t out w
  = Done (tt, with_events
                (material_events (m_pShaderManager (this w))
                   (match List.find (has_tag t) (m_objectMaterials (this w)) with
                    | Some e => assign_fields e out
                    | None => out
                    end)) w).
Proof.
  intros Hne Hptr. unfold SetShaderMaterial.
  rewrite (bind_eq _ _ w w (this w) eq_refl).
  destruct (m_objectMaterials (this w)) as [| first rest] eqn:Hlist;
    [contradiction |].
  change (Z.of_nat (length (first :: rest)) >? 0) with true. cbv iota.
  rewrite <- Hlist.
  assert (Hfind : lift (FindMaterial t out (this w)) w
                  = Done ((true,
                           match List.find (has_tag t) (m_objectMaterials (this w))
                           with
                           | Some e => assign_fields e out
                           | None => out
                           end), w)).
  { unfold lift. rewrite FindMaterial_as_find, Hlist. reflexivity. }
  rewrite (bind_eq _ _ _ _ _ Hfind). cbv beta iota.
  change (Bool.eqb true true) with true. cbv iota.
  do 4 (rewrite through_pShaderManager_then by (simpl; exact Hptr);
        try rewrite with_events_app).
  rewrite through_pShaderManager_run by (simpl; exact Hptr).
  rewrite with_events_app. reflexivity.
Qed.

(** X13.  With a shader manager and a non-empty material list,
    [SetShaderMaterial] always writes the five material uniforms, in the
    order ambientColor, ambientStrength, diffuseColor, specularColor,
    shininess.  They carry the fields of the first entry with the tag;
    when no entry has the tag they carry whatever the method's local
    record held. *)
Theorem SetShaderMaterial_writes (w : World) (t : string)
  (out : OBJECT_MATERIAL) :
  m_objectMaterials (this w) <> [] ->
  m_pShaderManager (this w) <> NULL ->
  (forall pre e post,
     m_objectMaterials (this w) = (pre ++ e :: post)%list ->
     Forall (fun x => tag x <> t) pre -> tag e = t ->
     SetShaderMaterial t out w
     = Done (tt, with_events (material_events (m_pShaderManager (this w)) e) w))
  /\
  (Forall (fun x => tag x <> t) (m_objectMaterials (this w)) ->
   SetShaderMaterial t out w
   = Done (tt, with_events (material_events (m_pShaderManager (this w)) out) w)).
Proof.
  intros Hne Hptr. split.
  - intros pre e post Hlist Hpre Htag.
    rewrite (SetShaderMaterial_run w t out Hne Hptr).
    pose proof (FindMaterial_first_match (this w) t out e pre post
                  Hlist Hpre Htag) as Hfm.
    rewrite FindMaterial_as_find in Hfm. injection Hfm as _ Hr.
    rewrite Hr. reflexivity.
  - intros Hall. rewrite (SetShaderMaterial_run w t out Hne Hptr).
    rewrite find_none_of_lookups; [reflexivity |].
    intros j e Hj. exact (Forall_lookup_1 _ _ j e Hall Hj).
Qed.

Lemma SetShaderMaterial_edge (w : World) (t : string)
  (out : OBJECT_MATERIAL) :
  (m_objectMaterials (this w) = [] -> SetShaderMaterial t out w = Done (tt, w)) /\
  (m_objectMaterials (this w) <> [] -> m_pShaderManager (this w) = NULL ->
   SetShaderMaterial t out w = Fault NullDereference).
Proof.
  split.
  - intros Hempty. unfold SetShaderMaterial.
    rewrite (bind_eq _ _ w w (this w) eq_refl). rewrite Hempty. reflexivity.
  - intros Hne Hnull. unfold SetShaderMaterial.
    rewrite (bind_eq _ _ w w (this w) eq_refl).
    destruct (m_objectMaterials (this w)) as [| first rest] eqn:Hlist;
      [contradiction |].
    change (Z.of_nat (length (first :: rest)) >? 0) with true. cbv iota.
    assert (Hfind : exists r, lift (FindMaterial t out (this w)) w
                              = Done ((true, r), w)).
    { eexists. unfold lift. rewrite FindMaterial_as_find, Hlist. reflexivity. }
    destruct Hfind as [r Hfind].
    rewrite (bind_eq _ _ _ _ _ Hfind). cbv beta iota.
    change (Bool.eqb true true) with true. cbv iota.
    apply bind_fault.
    unfold through_pShaderManager, bind, get_this, raise.
    rewrite Hnull. reflexivity.
Qed.

(** X14.  [SetShaderMaterial] is the one setter that does not test
    [m_pShaderManager].  On an empty material list it returns without any
    call, null pointer or not; on a non-empty list with a null pointer it
    calls through the null pointer, whatever the tag, where
    [SetShaderTexture] on the same object returns without a call. *)
Theorem SetShaderMaterial_without_guard (w : World) (t : string)
  (out : OBJECT_MATERIAL) :
  (m_objectMaterials (this w) = [] -> SetShaderMaterial t out w = Done (tt, w)) /\
  (m_objectMaterials (this w) <> [] -> m_pShaderManager (this w) = NULL ->
   SetShaderMaterial t out w = Fault NullDereference /\
   SetShaderTexture t w = Done (tt, w)).
Proof.
  destruct (SetShaderMaterial_edge w t out) as [Hempty Hnull].
  split; [exact Hempty |].
  intros Hne Hptr. split; [exact (Hnull Hne Hptr) |].
  unfold SetShaderTexture, bind, get_this. rewrite Hptr. reflexivity.
Qed.


(** ** Failed registrations *)

(** X15.  The two ways a registration fails differ in what they leave
    behind.  A file that cannot be read costs nothing: no call reaches the
    texture backend and no name is generated.  An image with an
    unsupported channel count has by then had a texture name generated
    and bound for it; the method returns without storing that name,
    without deleting it, and without calling [stbi_image_free]. *)
Theorem CreateGLTexture_failure_modes (w : World) (filename tag : string) :
  (disk w filename = None ->
   exists w', CreateGLTexture filename tag w = Done (false, w') /\
     this w' = this w /\
     gl_generated w' = gl_generated w /\
     trace w' = (trace w ++ [stbi_set_flip_vertically_on_load true;
                             stbi_load filename;
                             cout (Could_not_load_image filename)])%list) /\
  (forall img, disk w filename = Some img ->
     colorChannels img <> 3 -> colorChannels img <> 4 ->
     exists w' added,
       CreateGLTexture filename tag w = Done (false, w') /\
       this w' = this w /\
       trace w' = (trace w ++ added)%list /\
       gl_generated w' = S (gl_generated w) /\
       In (glGenTextures (next_name w)) added /\
       In (glBindTexture GL_TEXTURE_2D (next_name w)) added /\
       ~ In stbi_image_free added /\
       (forall name, ~ In (glDeleteTextures name) added) /\
       (forall j slot, m_textureIDs (this w') !! j = Some slot ->
          m_textureIDs (this w) !! j = Some slot)).
Proof.
  split.
  - intros Hdisk. eexists. split.
    + apply (CreateGLTexture_not_loaded w filename tag Hdisk).
    + simpl. auto.
  - intros img Hdisk H3 H4.
    exists (mk_world (this w)
              (trace w ++ refused_events filename img (next_name w))
              (disk w) (gl_names w) (S (gl_generated w))),
           (refused_events filename img (next_name w)).
    split; [apply (CreateGLTexture_refuses w filename tag img Hdisk H3 H4) |].
    split; [reflexivity |]. split; [reflexivity |]. split; [reflexivity |].
    unfold refused_events.
    split; [simpl; tauto |]. split; [simpl; tauto |].
    split; [intros Hin; simpl in Hin; intuition discriminate |].
    split; [intros name Hin; simpl in Hin; intuition discriminate |].
    intros j slot Hj. exact Hj.
Qed.

(** ** The texture flag *)

Lemma last_int_value_app (sm : pointer) (name : string) (tr1 tr2 : list event) :
  last_int_value sm name (tr1 ++ tr2)
  = match last_int_value sm name tr2 with
    | Some v => Some v
    | None => last_int_value sm name tr1
    end.
Proof.
  induction tr1 as [| e rest IH]; simpl.
  - destruct (last_int_value sm name tr2); reflexivity.
  - rewrite IH. destruct (last_int_value sm name tr2); reflexivity.
Qed.

Lemma SetShaderColor_run (w : World) (r g b a : float) :
  m_pShaderManager (this w) <> NULL ->
  SetShaderColor r g b a w
  = Done (tt, with_events
                [setIntValue (m_pShaderManager (this w)) "bUseTexture" 0;
                 setVec4Value (m_pShaderManager (this w)) "objectColor"
                   (mk_vec4 r g b a)] w).
Proof.
  intros Hptr. unfold SetShaderColor, bind, get_this, emit, with_events.
  destruct (Z.eqb_spec (m_pShaderManager (this w)) NULL) as [E | _];
    [contradiction |].
  simpl. rewrite <- app_assoc. reflexivity.
Qed.

Lemma SetShaderTexture_run (w : World) (tag : string) :
  registry_ok (this w) ->
  m_pShaderManager (this w) <> NULL ->
  exists k, FindTextureSlot tag (this w) = Done k /\
    SetShaderTexture tag w
    = Done (tt, with_events
                  [setIntValue (m_pShaderManager (this w)) "bUseTexture" 1;
                   setSampler2DValue (m_pShaderManager (this w))
                     "objectTexture" k] w).
Proof.
  intros Hok Hptr.
  assert (Hk : exists k, FindTextureSlot tag (this w) = Done k).
  { destruct (lookups_cases (this w) tag Hok)
      as [[_ [Hs _]] | [k [slot [_ [Hs _]]]]]; eauto. }
  destruct Hk as [k Hk]. exists k. split; [exact Hk |].
  unfold SetShaderTexture, bind, get_this, emit, lift, with_events.
  destruct (Z.eqb_spec (m_pShaderManager (this w)) NULL) as [E | _];
    [contradiction |].
  simpl. rewrite Hk. simpl. rewrite <- app_assoc. reflexivity.
Qed.

(** X16.  [SetShaderColor] and [SetShaderTexture] write the same
    uniform [bUseTexture], 0 and 1: called one after the other on the
    same shader manager, the later call decides the value the shader is
    left with. *)
Theorem later_of_color_and_texture_decides (w : World) (r g b a : float)
  (tag : string) :
  registry_ok (this w) ->
  m_pShaderManager (this w) <> NULL ->
  (exists w1 w2,
     SetShaderColor r g b a w = Done (tt, w1) /\
     SetShaderTexture tag w1 = Done (tt, w2) /\
     last_int_value (m_pShaderManager (this w)) "bUseTexture" (trace w2)
       = Some 1) /\
  (exists w1 w2,
     SetShaderTexture tag w = Done (tt, w1) /\
     SetShaderColor r g b a w1 = Done (tt, w2) /\
     last_int_value (m_pShaderManager (this w)) "bUseTexture" (trace w2)
       = Some 0).
Proof.
  intros Hok Hptr. split.
  - destruct (SetShaderTexture_run
                (with_events
                   [setIntValue (m_pShaderManager (this w)) "bUseTexture" 0;
                    setVec4Value (m_pShaderManager (this w)) "objectColor"
                      (mk_vec4 r g b a)] w) tag Hok Hptr) as [k [_ Hrun]].
    eexists. eexists. split; [apply SetShaderColor_run; exact Hptr |].
    split; [exact Hrun |].
    simpl. rewrite last_int_value_app. simpl.
    rewrite Z.eqb_refl. reflexivity.
  - destruct (SetShaderTexture_run w tag Hok Hptr) as [k [_ Hrun]].
    eexists. eexists. split; [exact Hrun |].
    split; [apply SetShaderColor_run; exact Hptr |].
    simpl. rewrite last_int_value_app. simpl.
    rewrite Z.eqb_refl. reflexivity.
Qed.

(** ** The constructor *)

(** X17.  The constructor leaves an empty registry: sixteen slots that
    all hold the tag [/0] and the handle 0xFFFFFFFF, counter 0, no
    material.  Every lookup on it answers not found, also for the tag
    [/0] that the constructor wrote into all sixteen slots, and
    [BindGLTextures] binds nothing. *)
Theorem lookups_after_constructor (pShaderManager : pointer) (w0 : World)
  (tag : string) (out : OBJECT_MATERIAL) :
  exists w, construct pShaderManager w0 = Done (tt, w) /\
    length (m_textureIDs (this w)) = texture_capacity /\
    Forall (fun slot => slot = placeholder) (m_textureIDs (this w)) /\
    m_loadedTextures (this w) = 0 /\
    FindTextureSlot tag (this w) = Done (-1) /\
    FindTextureID tag (this w) = Done (-1) /\
    FindMaterial tag out (this w) = Done (false, out) /\
    BindGLTextures w = Done (tt, w).
Proof.
  exists (set_object
            (mk_scene pShaderManager
               (replicate texture_capacity (Texture.mk "/0" GLuint_max)) 0 [])
            w0).
  split; [apply construct_result |].
  split; [reflexivity |].
  split; [repeat constructor |].
  split; [reflexivity |]. split; [reflexivity |]. split; [reflexivity |].
  split; [reflexivity |].
  unfold BindGLTextures, bind, get_this.
  rewrite for_loop_exit; reflexivity.
Qed.

(** ** What every run keeps *)

Lemma to_GLuint_range (z : Z) : 0 <= to_GLuint z < 4294967296.
Proof. unfold to_GLuint. apply Z.mod_pos_bound. lia. Qed.

Lemma scene_invariant_same_table (p : pointer) (o o' : SceneManager) :
  scene_invariant p o ->
  m_textureIDs o' = m_textureIDs o ->
  m_loadedTextures o' = m_loadedTextures o ->
  m_pShaderManager o' = m_pShaderManager o ->
  scene_invariant p o'.
Proof.
  unfold scene_invariant, registry_ok. intros [Hok [Hlen [Hptr Hslots]]] Ht Hc Hp.
  rewrite Ht, Hc, Hp. auto.
Qed.

Lemma scene_invariant_new_texture (p : pointer) (o : SceneManager)
  (tag : string) (z : Z) :
  scene_invariant p o ->
  m_loadedTextures o < Z.of_nat (length (m_textureIDs o)) ->
  scene_invariant p (with_new_texture tag (to_GLuint z) o).
Proof.
  intros [Hok [Hlen [Hptr Hslots]]] Hroom.
  split; [apply with_new_texture_ok; assumption |].
  split; [simpl; rewrite length_insert; exact Hlen |].
  split; [exact Hptr |].
  intros j slot Hj. simpl in Hj |- *.
  destruct Hok as [Hlo Hhi].
  destruct (Nat.eq_dec j (Z.to_nat (m_loadedTextures o))) as [-> | Hne].
  - rewrite list_lookup_insert_eq in Hj by lia. inversion Hj; subst slot.
    destruct (Nat.ltb_spec (Z.to_nat (m_loadedTextures o))
                (Z.to_nat (m_loadedTextures o + 1))); [| lia].
    simpl. apply to_GLuint_range.
  - rewrite list_lookup_insert_ne in Hj by lia.
    specialize (Hslots j slot Hj).
    destruct (Nat.ltb_spec j (Z.to_nat (m_loadedTextures o)));
      destruct (Nat.ltb_spec j (Z.to_nat (m_loadedTextures o + 1)));
      try lia; exact Hslots.
Qed.

Lemma scene_invariant_CreateGLTexture (p : pointer) (w w' : World)
  (filename tag : string) (b : bool) :
  scene_invariant p (this w) ->
  CreateGLTexture filename tag w = Done (b, w') ->
  scene_invariant p (this w').
Proof.
  intros Hinv Hrun. pose proof Hinv as [Hok _].
  destruct (CreateGLTexture_Done w w' filename tag b Hok Hrun) as [_ Hobj].
  destruct b.
  - destruct Hobj as [Hroom ->].
    apply (scene_invariant_new_texture p (this w) tag _ Hinv Hroom).
  - rewrite Hobj. exact Hinv.
Qed.

Lemma scene_invariant_CreateGLTexture_each (p : pointer)
  (calls : list (string * string)) :
  forall w w' : World,
    scene_invariant p (this w) ->
    CreateGLTexture_each calls w = Done (tt, w') ->
    scene_invariant p (this w').
Proof.
  induction calls as [| [filename tag] rest IH]; intros w w' Hinv Hrun.
  - inversion Hrun; subst. exact Hinv.
  - change (CreateGLTexture_each ((filename, tag) :: rest) w)
      with (bind (CreateGLTexture filename tag)
              (fun _ => CreateGLTexture_each rest) w) in Hrun.
    apply bind_Done in Hrun. destruct Hrun as [b [w1 [Hfirst Hrest]]].
    apply (IH w1 w'); [| exact Hrest].
    exact (scene_invariant_CreateGLTexture p w w1 filename tag b Hinv Hfirst).
Qed.

Lemma scene_invariant_DestroyGLTextures (p : pointer) (w w' : World) :
  scene_invariant p (this w) ->
  DestroyGLTextures w = Done (tt, w') ->
  scene_invariant p (this w').
Proof.
  intros [Hok [Hlen [Hptr Hslots]]] Hrun. pose proof Hok as [Hlo Hhi].
  unfold DestroyGLTextures in Hrun.
  rewrite (bind_eq _ _ w w (this w) eq_refl) in Hrun.
  destruct (DestroyGLTextures_loop_state
              (Z.to_nat (m_loadedTextures (this w))) 0 w)
    as [w1 [Hrun1 [Hcount [Hp [_ [Hlen1 Htable]]]]]]; try lia.
  rewrite Hrun1 in Hrun. inversion Hrun; subst w1.
  split; [unfold registry_ok; rewrite Hcount, Hlen1; lia |].
  split; [rewrite Hlen1; exact Hlen |].
  split; [rewrite Hp; exact Hptr |].
  intros j slot Hj. rewrite Hcount.
  destruct (lookup_lt_is_Some_2 (m_textureIDs (this w)) j) as [s Hs].
  { rewrite <- Hlen1. apply lookup_lt_Some in Hj. exact Hj. }
  rewrite (Htable j s Hs) in Hj. change (Z.to_nat 0) with 0%nat in Hj.
  simpl in Hj. specialize (Hslots j s Hs).
  destruct (Nat.ltb_spec j (Z.to_nat (m_loadedTextures (this w)))).
  - inversion Hj; subst slot. simpl. apply to_GLuint_range.
  - inversion Hj; subst slot. exact Hslots.
Qed.

Ltac setter_cases Hrun :=
  unfold bind, get_this, emit, ret, lift in Hrun;
  repeat match type of Hrun with
         | context [negb (?p =? NULL)] => destruct (p =? NULL); simpl in Hrun
         | context [FindTextureSlot ?t ?o] =>
           destruct (FindTextureSlot t o); simpl in Hrun
         end;
  inversion Hrun; subst; reflexivity.

Lemma SetTransformations_keeps_object (w w' : World) (s p : vec3)
  (x y z : float) :
  SetTransformations s x y z p w = Done (tt, w') -> this w' = this w.
Proof. intros Hrun. unfold SetTransformations in Hrun. setter_cases Hrun. Qed.

Lemma SetShaderColor_keeps_object (w w' : World) (r g b a : float) :
  SetShaderColor r g b a w = Done (tt, w') -> this w' = this w.
Proof. intros Hrun. unfold SetShaderColor in Hrun. setter_cases Hrun. Qed.

Lemma SetShaderTexture_keeps_object (w w' : World) (t : string) :
  SetShaderTexture t w = Done (tt, w') -> this w' = this w.
Proof. intros Hrun. unfold SetShaderTexture in Hrun. setter_cases Hrun. Qed.

Lemma SetTextureUVScale_keeps_object (w w' : World) (u v : float) :
  SetTextureUVScale u v w = Done (tt, w') -> this w' = this w.
Proof. intros Hrun. unfold SetTextureUVScale in Hrun. setter_cases Hrun. Qed.

Lemma SetShaderMaterial_keeps_object (w w' : World) (t : string)
  (out : OBJECT_MATERIAL) :
  SetShaderMaterial t out w = Done (tt, w') -> this w' = this w.
Proof.
  intros Hrun.
  destruct (m_objectMaterials (this w)) as [| first rest] eqn:Hlist.
  - rewrite (proj1 (SetShaderMaterial_edge w t out) Hlist) in Hrun.
    inversion Hrun; subst. reflexivity.
  - assert (Hne : m_objectMaterials (this w) <> []) by (rewrite Hlist; discriminate).
    destruct (Z.eq_dec (m_pShaderManager (this w)) NULL) as [E | E].
    + rewrite (proj2 (SetShaderMaterial_edge w t out) Hne E) in Hrun.
      discriminate.
    + rewrite (SetShaderMaterial_run w t out Hne E) in Hrun.
      inversion Hrun; subst. reflexivity.
Qed.

Lemma scene_invariant_perform (p : pointer) (c : method_call) (w w' : World) :
  scene_invariant p (this w) ->
  perform c w = Done (tt, w') ->
  scene_invariant p (this w').
Proof.
  intros Hinv Hrun. pose proof Hinv as [Hok _].
  destruct c as [f t | | | | m | s x y z q | r g b a | t | u v | t m];
    simpl in Hrun.
  - apply bind_Done in Hrun. destruct Hrun as [b [w1 [Hfirst Hret]]].
    inversion Hret; subst w1.
    exact (scene_invariant_CreateGLTexture p w w' f t b Hinv Hfirst).
  - rewrite (BindGLTextures_run w Hok) in Hrun. inversion Hrun; subst.
    exact Hinv.
  - exact (scene_invariant_DestroyGLTextures p w w' Hinv Hrun).
  - unfold LoadSceneTextures in Hrun. apply bind_Done in Hrun.
    destruct Hrun as [[] [w1 [Hfirst Hbind]]].
    pose proof (scene_invariant_CreateGLTexture_each p scene_textures w w1
                  Hinv Hfirst) as Hinv1.
    pose proof Hinv1 as [Hok1 _].
    rewrite (BindGLTextures_run w1 Hok1) in Hbind. inversion Hbind; subst.
    exact Hinv1.
  - rewrite push_back_material_run in Hrun. inversion Hrun; subst.
    apply (scene_invariant_same_table p (this w)); auto.
  - rewrite (SetTransformations_keeps_object w w' s q x y z Hrun). exact Hinv.
  - rewrite (SetShaderColor_keeps_object w w' r g b a Hrun). exact Hinv.
  - rewrite (SetShaderTexture_keeps_object w w' t Hrun). exact Hinv.
  - rewrite (SetTextureUVScale_keeps_object w w' u v Hrun). exact Hinv.
  - rewrite (SetShaderMaterial_keeps_object w w' t m Hrun). exact Hinv.
Qed.

Lemma scene_invariant_perform_all (p : pointer) (cs : list method_call) :
  forall w w' : World,
    scene_invariant p (this w) ->
    perform_all cs w = Done (tt, w') ->
    scene_invariant p (this w').
Proof.
  induction cs as [| c rest IH]; intros w w' Hinv Hrun.
  - inversion Hrun; subst. exact Hinv.
  - change (perform_all (c :: rest) w)
      with (bind (perform c) (fun _ => perform_all rest) w) in Hrun.
    apply bind_Done in Hrun. destruct Hrun as [[] [w1 [Hfirst Hrest]]].
    apply (IH w1 w'); [| exact Hrest].
    exact (scene_invariant_perform p c w w1 Hinv Hfirst).
Qed.

(** X18.  Every state that a constructed object reaches through its
    methods, in any order and with any arguments, has the fill counter
    within the sixteen-entry array, the shader manager pointer the
    constructor was given, handles within the [GLuint] range in the
    filled slots, and the constructor's placeholder ([/0], 0xFFFFFFFF)
    in every slot from the counter on. *)
Theorem scene_invariant_of_every_run (pShaderManager : pointer)
  (cs : list method_call) (w0 w : World) :
  bind (construct pShaderManager) (fun _ => perform_all cs) w0 = Done (tt, w) ->
  scene_invariant pShaderManager (this w).
Proof.
  intros Hrun. apply bind_Done in Hrun.
  destruct Hrun as [[] [w1 [Hctor Hrest]]].
  rewrite construct_result in Hctor. inversion Hctor; subst w1. clear Hctor.
  eapply scene_invariant_perform_all; [| exact Hrest].
  split; [unfold registry_ok; simpl; lia |].
  split; [reflexivity |].
  split; [reflexivity |].
  intros j slot Hj.
  cbn [this set_object m_textureIDs m_loadedTextures] in Hj |- *.
  do 16 (destruct j as [| j]; [inversion Hj; reflexivity |]).
  discriminate.
Qed.

(** ** The authored materials *)

Lemma push_back_each_run (l : list OBJECT_MATERIAL) :
  forall w : World,
    push_back_each l w
    = Done (tt, set_object
                  (with_objectMaterials (m_objectMaterials (this w) ++ l)
                     (this w)) w).
Proof.
  induction l as [| m rest IH]; intros w.
  - simpl. unfold ret, set_object, with_objectMaterials.
    rewrite app_nil_r. destruct w as [[] ? ? ? ?]. reflexivity.
  - change (push_back_each (m :: rest) w)
      with (bind (push_back_material m) (fun _ => push_back_each rest) w).
    rewrite (bind_eq _ _ _ _ _ (push_back_material_run w m)).
    rewrite IH. unfold set_object, with_objectMaterials. simpl.
    rewrite <- app_assoc. reflexivity.
Qed.

Lemma distinct_tags_before (l pre post : list OBJECT_MATERIAL)
  (e : OBJECT_MATERIAL) :
  List.NoDup (map tag l) ->
  l = (pre ++ e :: post)%list ->
  Forall (fun x => tag x <> tag e) pre.
Proof.
  intros Hnd ->. rewrite map_app in Hnd. simpl in Hnd.
  apply List.NoDup_remove_2 in Hnd.
  apply Forall_forall. intros x Hx Heq. apply Hnd.
  apply in_or_app. left. rewrite <- Heq.
  apply in_map. apply list_elem_of_In. exact Hx.
Qed.

Lemma defined_material_tags_distinct (lit : Z -> nat -> float) :
  List.NoDup (map tag (defined_materials lit)).
Proof.
  unfold defined_materials. simpl.
  repeat (constructor; [simpl; intuition discriminate |]).
  constructor.
Qed.

(** X19.  [DefineObjectMaterials] appends seventeen materials whose tags
    are pairwise different.  So each of them can be looked up afterwards:
    provided no material already in the list carries its tag,
    [FindMaterial] for the tag of a defined material returns [true] and
    hands back the ambient colour, ambient strength, diffuse colour,
    specular colour and shininess of that very material; the tag of the
    caller's record stays as it was. *)
Theorem DefineObjectMaterials_then_FindMaterial (lit : Z -> nat -> float)
  (w : World) (entry out : OBJECT_MATERIAL) :
  In entry (defined_materials lit) ->
  Forall (fun e => tag e <> tag entry) (m_objectMaterials (this w)) ->
  exists w', DefineObjectMaterials lit w = Done (tt, w') /\
    m_objectMaterials (this w')
      = (m_objectMaterials (this w) ++ defined_materials lit)%list /\
    length (defined_materials lit) = 17%nat /\
    FindMaterial (tag entry) out (this w')
      = Done (true, mk_material (ambientColor entry) (ambientStrength entry)
                      (diffuseColor entry) (specularColor entry)
                      (shininess entry) (tag out)).
Proof.
  intros Hin Hold.
  eexists. split; [apply push_back_each_run |].
  split; [reflexivity |]. split; [reflexivity |].
  destruct (in_split entry (defined_materials lit) Hin) as [pre [post Hsplit]].
  rewrite (FindMaterial_first_match _ (tag entry) out entry
             (m_objectMaterials (this w) ++ pre) post); [reflexivity | | |].
  - simpl. rewrite Hsplit. rewrite <- app_assoc. reflexivity.
  - apply Forall_app. split; [exact Hold |].
    apply (distinct_tags_before (defined_materials lit) pre post entry
             (defined_material_tags_distinct lit) Hsplit).
  - reflexivity.
Qed.

End MoreProperties.

(** * The properties on concrete scenes *)

#[local] Existing Instance R_arith.


(** ** The model matrix in exact arithmetic *)














(** C1 on the scene that [LoadSceneTextures] builds: after its first
    sixteen registrations the seventeenth, of [salt1], stores past the
    table. *)
Lemma full_table_witness :
  length (m_textureIDs (this (scene_with 16))) = texture_capacity /\
  m_loadedTextures (this (scene_with 16)) = 16 /\
  disk (scene_with 16) "textures/salt1.jpg" = Some rgb_image /\
  CreateGLTexture "textures/salt1.jpg" "salt1" (scene_with 16)
    = Fault (OutOfBounds 16) /\
  forall w', CreateGLTexture "textures/salt1.jpg" "salt1" (scene_with 16)
               <> Done (false, w').
Proof.
  assert (Hlen : length (m_textureIDs (this (scene_with 16))) = texture_capacity)
    by (vm_compute; reflexivity).
  assert (Hcount : m_loadedTextures (this (scene_with 16)) = 16)
    by (vm_compute; reflexivity).
  assert (Hdisk : disk (scene_with 16) "textures/salt1.jpg" = Some rgb_image)
    by (vm_compute; reflexivity).
  split; [exact Hlen |]. split; [exact Hcount |]. split; [exact Hdisk |].
  exact (CreateGLTexture_full_table_store_out_of_bounds
           (scene_with 16) "textures/salt1.jpg" "salt1" rgb_image
           Hlen Hcount Hdisk (or_introl eq_refl)).
Defined.

(** [LoadSceneTextures] itself, with all seventeen files decodable, runs
    into that store. *)
Lemma LoadSceneTextures_stores_past_the_table :
  bind (construct 1) (fun _ => LoadSceneTextures) blank_world
  = Fault (OutOfBounds 16).
Proof. vm_compute. reflexivity. Qed.

(** C3 on a scene with two textures. *)
Lemma teardown_witness :
  registry_ok (this (scene_with 2)) /\
  exists (w' : World) (names : list Z),
    SceneManager_dtor (scene_with 2) = Done (tt, w') /\
    trace w' = (trace (scene_with 2) ++ map glGenTextures names)%list /\
    length names = Z.to_nat (m_loadedTextures (this (scene_with 2))) /\
    forall name, ~ In (glDeleteTextures name) (map glGenTextures names).
Proof.
  assert (Hok : registry_ok (this (scene_with 2)))
    by (apply registry_okb_sound; vm_compute; reflexivity).
  split; [exact Hok |].
  exact (teardown_generates_instead_of_deleting (scene_with 2) Hok).
Defined.

(** The calls the destructor adds on that scene, and the handles it
    leaves in the two slots. *)
Lemma teardown_of_two_textures :
  exists w', SceneManager_dtor (scene_with 2) = Done (tt, w') /\
    trace w' = (trace (scene_with 2) ++ [glGenTextures 3; glGenTextures 4])%list /\
    filled_slots (this w') = [Texture.mk "ground" 3; Texture.mk "fabric02" 4].
Proof.
  eexists. split; [vm_compute; reflexivity |].
  split; vm_compute; reflexivity.
Qed.

(** C4: three registrations out of four attempts succeeded; registering
    [wood] then finds it below index 4. *)
Lemma register_then_FindTextureSlot_witness :
  bind (construct 1) (fun _ => register_counting four_attempts) blank_world
    = Done (3, scene_after_attempts) /\
  disk scene_after_attempts "textures/wood.jpg" = Some rgb_image /\
  (forall w', CreateGLTexture "textures/wood.jpg" "wood" scene_after_attempts
                = Done (true, w') ->
     exists i, FindTextureSlot "wood" (this w') = Done i /\ 0 <= i < 3 + 1) /\
  (3 < 16 -> exists w', CreateGLTexture "textures/wood.jpg" "wood"
                          scene_after_attempts = Done (true, w')).
Proof.
  assert (Hrun : bind (construct 1) (fun _ => register_counting four_attempts)
                   blank_world = Done (3, scene_after_attempts))
    by (vm_compute; reflexivity).
  assert (Hdisk : disk scene_after_attempts "textures/wood.jpg" = Some rgb_image)
    by (vm_compute; reflexivity).
  split; [exact Hrun |]. split; [exact Hdisk |].
  exact (register_then_FindTextureSlot 1 four_attempts blank_world
           scene_after_attempts 3 "textures/wood.jpg" "wood" rgb_image
           Hrun Hdisk (or_introl eq_refl)).
Defined.

(** C5 on a 2-channel image. *)
Lemma unsupported_channels_witness :
  disk (scene_with 1) "textures/grey_alpha.png" = Some grey_alpha_image /\
  colorChannels grey_alpha_image = 2 /\
  exists w', CreateGLTexture "textures/grey_alpha.png" "grey" (scene_with 1)
               = Done (false, w') /\
             m_loadedTextures (this w') = m_loadedTextures (this (scene_with 1)) /\
             m_textureIDs (this w') = m_textureIDs (this (scene_with 1)).
Proof.
  assert (Hdisk : disk (scene_with 1) "textures/grey_alpha.png"
                  = Some grey_alpha_image) by (vm_compute; reflexivity).
  split; [exact Hdisk |]. split; [reflexivity |].
  apply (CreateGLTexture_unsupported_channels (scene_with 1)
           "textures/grey_alpha.png" "grey" grey_alpha_image Hdisk);
    simpl; lia.
Defined.

(** C6 on a scene that never registered the tag. *)
Lemma unregistered_tag_witness :
  registry_ok (this (scene_with 3)) /\
  no_tag_from (this (scene_with 3)) "unregistered-tag" 0 /\
  FindTextureSlot "unregistered-tag" (this (scene_with 3)) = Done (-1).
Proof.
  assert (Hok : registry_ok (this (scene_with 3)))
    by (apply registry_okb_sound; vm_compute; reflexivity).
  assert (Hno : no_tag_from (this (scene_with 3)) "unregistered-tag" 0)
    by (apply no_tagb_sound; vm_compute; reflexivity).
  split; [exact Hok |]. split; [exact Hno |].
  exact (FindTextureSlot_unregistered (this (scene_with 3)) "unregistered-tag"
           Hok Hno).
Defined.

(** C9 as first stated fails when the backend hands out the name
    0xFFFFFFFF: the slot lookup finds [wax] in slot 0, whose handle is
    4294967295, while the handle lookup returns -1. *)
Lemma FindTextureID_sentinel_collision :
  registry_ok (this collision_scene) /\
  m_textureIDs (this collision_scene) !! 0%nat = Some (Texture.mk "wax" 4294967295) /\
  FindTextureSlot "wax" (this collision_scene) = Done 0 /\
  FindTextureID "wax" (this collision_scene) = Done (-1) /\
  ~ (FindTextureSlot "wax" (this collision_scene) = Done (-1) <->
     FindTextureID "wax" (this collision_scene) = Done (-1)) /\
  FindTextureID "wax" (this collision_scene) <> Done 4294967295.
Proof.
  assert (Hslot : FindTextureSlot "wax" (this collision_scene) = Done 0)
    by (vm_compute; reflexivity).
  assert (Hid : FindTextureID "wax" (this collision_scene) = Done (-1))
    by (vm_compute; reflexivity).
  split; [apply registry_okb_sound; vm_compute; reflexivity |].
  split; [vm_compute; reflexivity |].
  split; [exact Hslot |]. split; [exact Hid |]. split.
  - intros [_ Hback]. specialize (Hback Hid). rewrite Hslot in Hback.
    discriminate.
  - rewrite Hid. discriminate.
Defined.

(** C9 as amended, on a scene with three textures. *)
Lemma same_entry_witness :
  registry_ok (this (scene_with 3)) /\
  FindTextureSlot "Onyx1" (this (scene_with 3)) = Done 2 /\
  FindTextureID "Onyx1" (this (scene_with 3)) = Done 3 /\
  (FindTextureSlot "glass" (this (scene_with 3)) = Done (-1) ->
   FindTextureID "glass" (this (scene_with 3)) = Done (-1)).
Proof.
  assert (Hok : registry_ok (this (scene_with 3)))
    by (apply registry_okb_sound; vm_compute; reflexivity).
  assert (Hslot : FindTextureSlot "Onyx1" (this (scene_with 3)) = Done 2)
    by (vm_compute; reflexivity).
  split; [exact Hok |]. split; [exact Hslot |]. split.
  - destruct (proj1 (proj2 (FindTextureSlot_FindTextureID_same_entry
                              (this (scene_with 3)) "Onyx1" Hok))
                    2 ltac:(lia) Hslot) as [slot [Hlook [_ Hsmall]]].
    vm_compute in Hlook. inversion Hlook; subst slot.
    apply Hsmall. simpl. lia.
  - exact (proj1 (FindTextureSlot_FindTextureID_same_entry
                    (this (scene_with 3)) "glass" Hok)).
Defined.

(** C2 on the empty list and on a list without the tag. *)
Lemma FindMaterial_on_examples :
  FindMaterial "a" material_out (this blank_world) = Done (false, material_out) /\
  FindMaterial "zinc" material_out
    (with_objectMaterials [material_a_first; material_b] (this blank_world))
  = Done (true, material_out).
Proof. split; reflexivity. Qed.



(** C10 on a scene constructed with a null shader manager. *)
Lemma null_shader_manager_witness :
  m_pShaderManager (this unshaded_scene) = NULL /\
  SetTransformations (mk_vec3 f1 f1 f1) f0 f0 f0 (mk_vec3 f0 f0 f0) unshaded_scene
    = Done (tt, unshaded_scene) /\
  SetShaderColor f1 f0 f0 f1 unshaded_scene = Done (tt, unshaded_scene) /\
  SetShaderTexture "wood" unshaded_scene = Done (tt, unshaded_scene) /\
  SetTextureUVScale f1 f1 unshaded_scene = Done (tt, unshaded_scene).
Proof.
  assert (Hnull : m_pShaderManager (this unshaded_scene) = NULL)
    by (vm_compute; reflexivity).
  split; [exact Hnull |].
  exact (setters_do_nothing_without_shader_manager unshaded_scene
           (mk_vec3 f1 f1 f1) (mk_vec3 f0 f0 f0) f0 f0 f0 f1 f0 f0 f1 f1 f1
           "wood" Hnull).
Defined.

(** * The further properties on concrete scenes *)

(** X1 on three textures and a fourth, fresh tag. *)
Lemma register_fresh_tag_witness :
  registry_ok (this (scene_with 3)) /\
  no_tag_from (this (scene_with 3)) "wood" 0 /\
  exists w', CreateGLTexture "textures/wood.jpg" "wood" (scene_with 3)
               = Done (true, w') /\
    m_loadedTextures (this w') = m_loadedTextures (this (scene_with 3)) + 1 /\
    FindTextureSlot "wood" (this w')
      = Done (m_loadedTextures (this (scene_with 3))) /\
    FindTextureID "wood" (this w')
      = Done (GLuint_to_int (next_name (scene_with 3))).
Proof.
  assert (Hok : registry_ok (this (scene_with 3)))
    by (apply registry_okb_sound; vm_compute; reflexivity).
  assert (Hno : no_tag_from (this (scene_with 3)) "wood" 0)
    by (apply no_tagb_sound; vm_compute; reflexivity).
  split; [exact Hok |]. split; [exact Hno |].
  apply (register_fresh_tag_then_lookups (scene_with 3) "textures/wood.jpg"
           "wood" rgb_image Hok); auto.
  vm_compute. reflexivity.
Defined.

(** X2: registering [wood] leaves the lookups of [Onyx1] alone. *)
Lemma other_lookups_witness :
  registry_ok (this (scene_with 3)) /\
  CreateGLTexture "textures/wood.jpg" "wood" (scene_with 3)
    = Done (true, scene_with 4) /\
  FindTextureSlot "Onyx1" (this (scene_with 4))
    = FindTextureSlot "Onyx1" (this (scene_with 3)) /\
  FindTextureID "Onyx1" (this (scene_with 4))
    = FindTextureID "Onyx1" (this (scene_with 3)).
Proof.
  assert (Hok : registry_ok (this (scene_with 3)))
    by (apply registry_okb_sound; vm_compute; reflexivity).
  assert (Hrun : CreateGLTexture "textures/wood.jpg" "wood" (scene_with 3)
                 = Done (true, scene_with 4)) by (vm_compute; reflexivity).
  split; [exact Hok |]. split; [exact Hrun |].
  apply (registration_keeps_other_lookups (scene_with 3) (scene_with 4)
           "textures/wood.jpg" "wood" "Onyx1" true Hok Hrun).
  discriminate.
Defined.

(** X3: a second texture under the tag [ground] is never found. *)
Lemma duplicate_texture_tag_witness :
  registry_ok (this (scene_with 3)) /\
  FindTextureSlot "ground" (this (scene_with 3)) = Done 0 /\
  CreateGLTexture "textures/wood.jpg" "ground" (scene_with 3)
    = Done (true, scene_with_duplicate) /\
  m_loadedTextures (this scene_with_duplicate)
    = m_loadedTextures (this (scene_with 3)) + 1 /\
  m_textureIDs (this scene_with_duplicate)
    !! Z.to_nat (m_loadedTextures (this (scene_with 3)))
    = Some (Texture.mk "ground" (next_name (scene_with 3))) /\
  FindTextureSlot "ground" (this scene_with_duplicate) = Done 0 /\
  FindTextureID "ground" (this scene_with_duplicate)
    = FindTextureID "ground" (this (scene_with 3)).
Proof.
  assert (Hok : registry_ok (this (scene_with 3)))
    by (apply registry_okb_sound; vm_compute; reflexivity).
  assert (Hfound : FindTextureSlot "ground" (this (scene_with 3)) = Done 0)
    by (vm_compute; reflexivity).
  assert (Hrun : CreateGLTexture "textures/wood.jpg" "ground" (scene_with 3)
                 = Done (true, scene_with_duplicate))
    by (vm_compute; reflexivity).
  split; [exact Hok |]. split; [exact Hfound |]. split; [exact Hrun |].
  exact (duplicate_texture_tag_is_shadowed (scene_with 3) scene_with_duplicate
           "textures/wood.jpg" "ground" 0 Hok Hfound ltac:(lia) Hrun).
Defined.

(** X4 on three textures. *)
Lemma FindTextureSlot_result_range_witness :
  registry_ok (this (scene_with 3)) /\
  exists r, FindTextureSlot "Onyx1" (this (scene_with 3)) = Done r /\
    ((r = -1 /\ no_tag_from (this (scene_with 3)) "Onyx1" 0) \/
     (exists slot, first_tag_from (this (scene_with 3)) "Onyx1" 0 r slot)).
Proof.
  assert (Hok : registry_ok (this (scene_with 3)))
    by (apply registry_okb_sound; vm_compute; reflexivity).
  split; [exact Hok |].
  exact (FindTextureSlot_result_range (this (scene_with 3)) "Onyx1" Hok).
Defined.

(** X5 on two textures: four calls, units 0 and 1. *)
Lemma BindGLTextures_witness :
  registry_ok (this (scene_with 2)) /\
  bind_events 0 (filled_slots (this (scene_with 2)))
    = [glActiveTexture 0; glBindTexture GL_TEXTURE_2D 1;
       glActiveTexture 1; glBindTexture GL_TEXTURE_2D 2] /\
  exists w', BindGLTextures (scene_with 2) = Done (tt, w') /\
    this w' = this (scene_with 2) /\
    trace w' = (trace (scene_with 2)
                ++ bind_events 0 (filled_slots (this (scene_with 2))))%list.
Proof.
  assert (Hok : registry_ok (this (scene_with 2)))
    by (apply registry_okb_sound; vm_compute; reflexivity).
  split; [exact Hok |]. split; [vm_compute; reflexivity |].
  destruct (BindGLTextures_binds_filled_slots (scene_with 2) Hok)
    as [w' [Hrun [Hobj [Htrace _]]]].
  exists w'. auto.
Defined.

(** X6: [Onyx1] is in slot 2, and unit 2 is bound to its handle 3. *)
Lemma sampler_index_witness :
  registry_ok (this (scene_with 3)) /\
  m_pShaderManager (this (scene_with 3)) <> NULL /\
  FindTextureSlot "Onyx1" (this (scene_with 3)) = Done 2 /\
  exists slot,
    SetShaderTexture "Onyx1" (scene_with 3)
    = Done (tt, with_events
                  [setIntValue (m_pShaderManager (this (scene_with 3)))
                     "bUseTexture" 1;
                   setSampler2DValue (m_pShaderManager (this (scene_with 3)))
                     "objectTexture" 2] (scene_with 3)) /\
    FindTextureID "Onyx1" (this (scene_with 3))
      = Done (GLuint_to_int (Texture.ID slot)) /\
    bind_events 0 (filled_slots (this (scene_with 3))) !! (2 * Z.to_nat 2)%nat
      = Some (glActiveTexture 2) /\
    bind_events 0 (filled_slots (this (scene_with 3)))
      !! (2 * Z.to_nat 2 + 1)%nat
      = Some (glBindTexture GL_TEXTURE_2D (Texture.ID slot)).
Proof.
  assert (Hok : registry_ok (this (scene_with 3)))
    by (apply registry_okb_sound; vm_compute; reflexivity).
  assert (Hptr : m_pShaderManager (this (scene_with 3)) <> NULL)
    by (vm_compute; discriminate).
  assert (Hfound : FindTextureSlot "Onyx1" (this (scene_with 3)) = Done 2)
    by (vm_compute; reflexivity).
  split; [exact Hok |]. split; [exact Hptr |]. split; [exact Hfound |].
  exact (sampler_index_is_bound_unit (scene_with 3) "Onyx1" 2
           Hok Hptr Hfound ltac:(lia)).
Defined.

(** X7: [salt1] was never registered on this scene. *)
Lemma unknown_tag_witness :
  registry_ok (this (scene_with 3)) /\
  m_pShaderManager (this (scene_with 3)) <> NULL /\
  no_tag_from (this (scene_with 3)) "salt1" 0 /\
  SetShaderTexture "salt1" (scene_with 3)
  = Done (tt, with_events
                [setIntValue (m_pShaderManager (this (scene_with 3)))
                   "bUseTexture" 1;
                 setSampler2DValue (m_pShaderManager (this (scene_with 3)))
                   "objectTexture" (-1)] (scene_with 3)).
Proof.
  assert (Hok : registry_ok (this (scene_with 3)))
    by (apply registry_okb_sound; vm_compute; reflexivity).
  assert (Hptr : m_pShaderManager (this (scene_with 3)) <> NULL)
    by (vm_compute; discriminate).
  assert (Hno : no_tag_from (this (scene_with 3)) "salt1" 0)
    by (apply no_tagb_sound; vm_compute; reflexivity).
  split; [exact Hok |]. split; [exact Hptr |]. split; [exact Hno |].
  exact (SetShaderTexture_unknown_tag (scene_with 3) "salt1" Hok Hptr Hno).
Defined.

(** X8 on two textures: the handles 1 and 2 give way to 3 and 4. *)
Lemma DestroyGLTextures_witness :
  registry_ok (this (scene_with 2)) /\
  exists w' : World,
    DestroyGLTextures (scene_with 2) = Done (tt, w') /\
    m_loadedTextures (this w') = m_loadedTextures (this (scene_with 2)) /\
    m_textureIDs (this w') !! 1%nat = Some (Texture.mk "fabric02" 4) /\
    FindTextureSlot "fabric02" (this w')
      = FindTextureSlot "fabric02" (this (scene_with 2)).
Proof.
  assert (Hok : registry_ok (this (scene_with 2)))
    by (apply registry_okb_sound; vm_compute; reflexivity).
  split; [exact Hok |].
  destruct (DestroyGLTextures_keeps_tags_replaces_handles (scene_with 2) Hok)
    as [w' [Hrun [Hcount [Hslots Hfind]]]].
  exists w'. split; [exact Hrun |]. split; [exact Hcount |].
  split; [| apply Hfind].
  rewrite (Hslots 1%nat (Texture.mk "fabric02" 2)); [| vm_compute; reflexivity].
  vm_compute. reflexivity.
Defined.

(** X9 both ways: without [salt1.jpg] sixteen textures are loaded; with
    all seventeen files the run stops. *)
Lemma LoadSceneTextures_witness :
  count_loadable sparse_world scene_textures = 16 /\
  count_loadable blank_world scene_textures = 17 /\
  (exists w', bind (construct 1) (fun _ => LoadSceneTextures) sparse_world
                = Done (tt, w') /\
              m_loadedTextures (this w')
                = count_loadable sparse_world scene_textures) /\
  bind (construct 1) (fun _ => LoadSceneTextures) blank_world
    = Fault (OutOfBounds 16).
Proof.
  assert (H16 : count_loadable sparse_world scene_textures = 16)
    by (vm_compute; reflexivity).
  assert (H17 : count_loadable blank_world scene_textures = 17)
    by (vm_compute; reflexivity).
  split; [exact H16 |]. split; [exact H17 |]. split.
  - apply (proj1 (LoadSceneTextures_after_constructor 1 sparse_world)).
    rewrite H16. lia.
  - exact (proj2 (LoadSceneTextures_after_constructor 1 blank_world) H17).
Defined.

(** X10 on the full table: the seventeenth tag is the missing one. *)
Lemma missing_texture_witness :
  registry_ok (this (scene_with 16)) /\
  length (m_textureIDs (this (scene_with 16))) = texture_capacity /\
  FindTextureSlot "salt1" (this (scene_with 16)) = Done (-1) /\
  exists filename tag,
    In (filename, tag) scene_textures /\
    FindTextureSlot tag (this (scene_with 16)) = Done (-1).
Proof.
  assert (Hok : registry_ok (this (scene_with 16)))
    by (apply registry_okb_sound; vm_compute; reflexivity).
  assert (Hcap : length (m_textureIDs (this (scene_with 16))) = texture_capacity)
    by (vm_compute; reflexivity).
  split; [exact Hok |]. split; [exact Hcap |].
  split; [vm_compute; reflexivity |].
  exact (some_scene_texture_is_missing (this (scene_with 16)) Hok Hcap).
Defined.

(** X11 on the empty material list. *)
Lemma push_back_then_FindMaterial_witness :
  Forall (fun e => tag e <> tag material_a_first)
    (m_objectMaterials (this blank_world)) /\
  exists w', push_back_material material_a_first blank_world = Done (tt, w') /\
    FindMaterial (tag material_a_first) material_out (this w')
    = Done (true, mk_material (ambientColor material_a_first)
                    (ambientStrength material_a_first)
                    (diffuseColor material_a_first)
                    (specularColor material_a_first)
                    (shininess material_a_first) (tag material_out)).
Proof.
  assert (Hfresh : Forall (fun e => tag e <> tag material_a_first)
                     (m_objectMaterials (this blank_world)))
    by (simpl; constructor).
  split; [exact Hfresh |].
  exact (push_back_then_FindMaterial blank_world material_a_first material_out
           Hfresh).
Defined.

(** X12 on the empty list: before the push the tag [a] is reported not
    found, after pushing the material tagged [b] it is reported found. *)
Lemma push_back_other_tag_witness :
  tag material_b <> "a" /\
  FindMaterial "a" material_out (this blank_world) = Done (false, material_out) /\
  exists w', push_back_material material_b blank_world = Done (tt, w') /\
    FindMaterial "a" material_out (this w') = Done (true, material_out) /\
    (m_objectMaterials (this blank_world) = [] ->
     false = false /\ material_out = material_out).
Proof.
  assert (Hne : tag material_b <> "a") by (simpl; discriminate).
  assert (Hbefore : FindMaterial "a" material_out (this blank_world)
                    = Done (false, material_out)) by reflexivity.
  split; [exact Hne |]. split; [exact Hbefore |].
  exact (push_back_other_tag blank_world material_b material_out "a" false
           material_out Hne Hbefore).
Defined.

(** X13 on the materials tagged a, b, a: the tag [a] pushes the first
    material, the tag [zinc] pushes the local record. *)
Lemma SetShaderMaterial_writes_witness :
  m_objectMaterials (this material_scene)
    = [material_a_first; material_b; material_a_third] /\
  m_pShaderManager (this material_scene) <> NULL /\
  SetShaderMaterial "a" material_out material_scene
  = Done (tt, with_events
                (material_events (m_pShaderManager (this material_scene))
                   material_a_first) material_scene) /\
  SetShaderMaterial "zinc" material_out material_scene
  = Done (tt, with_events
                (material_events (m_pShaderManager (this material_scene))
                   material_out) material_scene).
Proof.
  assert (Hlist : m_objectMaterials (this material_scene)
                  = [material_a_first; material_b; material_a_third])
    by reflexivity.
  assert (Hne : m_objectMaterials (this material_scene) <> [])
    by (rewrite Hlist; discriminate).
  assert (Hone : m_pShaderManager (this material_scene) = 1) by reflexivity.
  assert (Hptr : m_pShaderManager (this material_scene) <> NULL)
    by (rewrite Hone; discriminate).
  split; [exact Hlist |]. split; [exact Hptr |].
  destruct (SetShaderMaterial_writes material_scene "a" material_out Hne Hptr)
    as [Hfound _].
  destruct (SetShaderMaterial_writes material_scene "zinc" material_out Hne Hptr)
    as [_ Habsent].
  split.
  - apply (Hfound [] material_a_first [material_b; material_a_third]);
      [exact Hlist | constructor | reflexivity].
  - apply Habsent. rewrite Hlist.
    repeat constructor; simpl; discriminate.
Defined.

(** X14 on a scene without shader manager: no material, no call; one
    material, a call through the null pointer. *)
Lemma SetShaderMaterial_without_guard_witness :
  m_objectMaterials (this unshaded_scene) = [] /\
  SetShaderMaterial "a" material_out unshaded_scene = Done (tt, unshaded_scene) /\
  m_objectMaterials (this unshaded_material_scene) <> [] /\
  m_pShaderManager (this unshaded_material_scene) = NULL /\
  SetShaderMaterial "a" material_out unshaded_material_scene
    = Fault NullDereference /\
  SetShaderTexture "a" unshaded_material_scene
    = Done (tt, unshaded_material_scene).
Proof.
  assert (Hempty : m_objectMaterials (this unshaded_scene) = []) by reflexivity.
  assert (Hone : m_objectMaterials (this unshaded_material_scene)
                 = [material_a_first]) by reflexivity.
  assert (Hne : m_objectMaterials (this unshaded_material_scene) <> [])
    by (rewrite Hone; discriminate).
  assert (Hnull : m_pShaderManager (this unshaded_material_scene) = NULL)
    by reflexivity.
  split; [exact Hempty |].
  split; [exact (proj1 (SetShaderMaterial_without_guard unshaded_scene "a"
                          material_out) Hempty) |].
  split; [exact Hne |]. split; [exact Hnull |].
  exact (proj2 (SetShaderMaterial_without_guard unshaded_material_scene "a"
                  material_out) Hne Hnull).
Defined.

(** X15 on a missing file and on the 2-channel image. *)
Lemma failure_modes_witness :
  disk (scene_with 1) "textures/missing.jpg" = None /\
  (exists w', CreateGLTexture "textures/missing.jpg" "missing" (scene_with 1)
                = Done (false, w') /\
     this w' = this (scene_with 1) /\
     gl_generated w' = gl_generated (scene_with 1)) /\
  disk (scene_with 1) "textures/grey_alpha.png" = Some grey_alpha_image /\
  (exists w', CreateGLTexture "textures/grey_alpha.png" "grey" (scene_with 1)
                = Done (false, w') /\
     this w' = this (scene_with 1) /\
     gl_generated w' = S (gl_generated (scene_with 1))).
Proof.
  assert (Hnone : disk (scene_with 1) "textures/missing.jpg" = None)
    by (vm_compute; reflexivity).
  assert (Hsome : disk (scene_with 1) "textures/grey_alpha.png"
                  = Some grey_alpha_image) by (vm_compute; reflexivity).
  split; [exact Hnone |]. split.
  - destruct (proj1 (CreateGLTexture_failure_modes (scene_with 1)
                       "textures/missing.jpg" "missing") Hnone)
      as [w' [Hrun [Hobj [Hgen _]]]].
    exists w'. auto.
  - split; [exact Hsome |].
    destruct (proj2 (CreateGLTexture_failure_modes (scene_with 1)
                       "textures/grey_alpha.png" "grey")
                    grey_alpha_image Hsome)
      as [w' [added [Hrun [Hobj [_ [Hgen _]]]]]];
      [simpl; lia | simpl; lia |].
    exists w'. auto.
Defined.

(** X16 on a scene with three textures. *)
Lemma later_call_decides_witness :
  registry_ok (this (scene_with 3)) /\
  m_pShaderManager (this (scene_with 3)) <> NULL /\
  (exists w1 w2,
     SetShaderColor f1 f0 f0 f1 (scene_with 3) = Done (tt, w1) /\
     SetShaderTexture "wood" w1 = Done (tt, w2) /\
     last_int_value (m_pShaderManager (this (scene_with 3))) "bUseTexture"
       (trace w2) = Some 1) /\
  (exists w1 w2,
     SetShaderTexture "wood" (scene_with 3) = Done (tt, w1) /\
     SetShaderColor f1 f0 f0 f1 w1 = Done (tt, w2) /\
     last_int_value (m_pShaderManager (this (scene_with 3))) "bUseTexture"
       (trace w2) = Some 0).
Proof.
  assert (Hok : registry_ok (this (scene_with 3)))
    by (apply registry_okb_sound; vm_compute; reflexivity).
  assert (Hptr : m_pShaderManager (this (scene_with 3)) <> NULL)
    by (vm_compute; discriminate).
  split; [exact Hok |]. split; [exact Hptr |].
  exact (later_of_color_and_texture_decides (scene_with 3) f1 f0 f0 f1 "wood"
           Hok Hptr).
Defined.

(** X18 on a session of eight calls. *)
Lemma scene_invariant_witness :
  bind (construct 1) (fun _ => perform_all session) sparse_world
    = Done (tt, scene_after_session) /\
  m_loadedTextures (this scene_after_session) = 16 /\
  scene_invariant 1 (this scene_after_session).
Proof.
  assert (Hrun : bind (construct 1) (fun _ => perform_all session) sparse_world
                 = Done (tt, scene_after_session))
    by (vm_compute; reflexivity).
  split; [exact Hrun |]. split; [vm_compute; reflexivity |].
  exact (scene_invariant_of_every_run 1 session sparse_world
           scene_after_session Hrun).
Defined.

(** X19 for the candle wax, on a list that already holds the materials
    tagged a, b, a. *)
Lemma DefineObjectMaterials_witness :
  In wax_material (defined_materials R_lit) /\
  tag wax_material = "wax1" /\
  Forall (fun e => tag e <> tag wax_material)
    (m_objectMaterials (this material_scene)) /\
  exists w', DefineObjectMaterials R_lit material_scene = Done (tt, w') /\
    m_objectMaterials (this w')
      = (m_objectMaterials (this material_scene) ++ defined_materials R_lit)%list /\
    length (defined_materials R_lit) = 17%nat /\
    FindMaterial (tag wax_material) material_out (this w')
      = Done (true, mk_material (ambientColor wax_material)
                      (ambientStrength wax_material) (diffuseColor wax_material)
                      (specularColor wax_material) (shininess wax_material)
                      (tag material_out)).
Proof.
  assert (Hin : In wax_material (defined_materials R_lit))
    by (apply nth_In; simpl; lia).
  assert (Hlist : m_objectMaterials (this material_scene)
                  = [material_a_first; material_b; material_a_third])
    by reflexivity.
  assert (Hold : Forall (fun e => tag e <> tag wax_material)
                   (m_objectMaterials (this material_scene)))
    by (rewrite Hlist; repeat constructor; simpl; discriminate).
  split; [exact Hin |]. split; [reflexivity |]. split; [exact Hold |].
  exact (DefineObjectMaterials_then_FindMaterial R_lit material_scene
           wax_material material_out Hin Hold).
Defined.
